(** * ZED dual depth viewer (app.py): depth colorizer, camera session,
      dual-session controller.

    The program is embedded shallowly.  Depth samples are IEEE-754
    binary32 values (the ZED depth measure is a one-channel float32
    matrix), written with the standard library's [spec_float]; the
    arithmetic that OpenCV performs in double precision is done in
    binary64.  The camera SDK and the colormap table are interfaces of
    the program and are kept abstract.  Python exceptions are threaded
    through a small state-and-exception monad in which the mutations done
    before a [raise] stay visible, as they do in Python. *)

From Stdlib Require Import ZArith List Bool Lia Ascii String.
From Stdlib Require Import SpecFloat.
From stdpp Require Import base option list strings gmap.

Open Scope Z_scope.

(** ** Floating-point formats *)

(** [(float)x] and [(double)x]: conversion of a value to another binary
    format, rounding to nearest, ties to even. *)
Definition cast (prec emax : Z) (x : spec_float) : spec_float :=
  match x with
  | S754_finite s m e => binary_round prec emax s m e
  | _ => x
  end.

(** numpy's [float32] and OpenCV's [CV_32F]. *)
Module F32.
Definition prec : Z := 24.
Definition emax : Z := 128.
Definition of_Z (z : Z) : spec_float := binary_normalize prec emax z 0 false.
Definition of_float : spec_float -> spec_float := cast prec emax.
Definition add := SFadd prec emax.
Definition sub := SFsub prec emax.
Definition mul := SFmul prec emax.
Definition ltb := SFltb.
End F32.

(** C++ [double]. *)
Module F64.
Definition prec : Z := 53.
Definition emax : Z := 1024.
Definition of_Z (z : Z) : spec_float := binary_normalize prec emax z 0 false.
Definition of_float : spec_float -> spec_float := cast prec emax.
Definition sub := SFsub prec emax.
Definition mul := SFmul prec emax.
Definition div := SFdiv prec emax.
Definition ltb := SFltb.
(** [DBL_EPSILON] = 2^-52. *)
Definition DBL_EPSILON : spec_float := S754_finite false 4503599627370496 (-104).
End F64.

Definition pos_zero : spec_float := S754_zero false.
Definition pos_inf : spec_float := S754_infinity false.
Definition neg_inf : spec_float := S754_infinity true.

(** A value that compares equal to zero (either sign). *)
Definition is_zero (x : spec_float) : bool :=
  match x with S754_zero _ => true | _ => false end.

(** ** Arrays: a shape (rows, columns) and the row-major buffer *)

Record ndarray (A : Type) : Type := NDArray {
  nd_h : nat;
  nd_w : nat;
  nd_data : list A
}.
Arguments NDArray {A} _ _ _.
Arguments nd_h {A} _.
Arguments nd_w {A} _.
Arguments nd_data {A} _.

Definition nd_map {A B : Type} (f : A -> B) (a : ndarray A) : ndarray B :=
  NDArray (nd_h a) (nd_w a) (map f (nd_data a)).

(** One pixel of a three-channel 8-bit image. *)
Definition pixel : Type := (Z * Z * Z)%type.

(** A depth frame, its 8-bit rendering and a colour image. *)
Definition DepthFrame : Type := ndarray spec_float.
Definition Image8 : Type := ndarray Z.
Definition ColorImage : Type := ndarray pixel.

(** ** The library calls of [process_depth_image] *)

(** [np.nan_to_num(x, nan=0.0, posinf=0.0, neginf=0.0)], per element. *)
Definition nan_to_num1 (x : spec_float) : spec_float :=
  match x with
  | S754_nan => pos_zero
  | S754_infinity _ => pos_zero
  | _ => x
  end.

Definition np_nan_to_num (a : DepthFrame) : DepthFrame := nd_map nan_to_num1 a.

(** [np.clip(a, lo, hi)] is [minimum(maximum(a, lo), hi)]; numpy's clip
    kernel keeps a NaN operand and otherwise picks with [>] and [<].
    The integer bounds are converted to the array's float32. *)
Definition npy_max (a b : spec_float) : spec_float :=
  match a with
  | S754_nan => a
  | _ => if F32.ltb b a then a else b
  end.

Definition npy_min (a b : spec_float) : spec_float :=
  match a with
  | S754_nan => a
  | _ => if F32.ltb a b then a else b
  end.

Definition clip1 (lo hi : Z) (x : spec_float) : spec_float :=
  npy_min (npy_max x (F32.of_Z lo)) (F32.of_Z hi).

Definition np_clip (a : DepthFrame) (lo hi : Z) : DepthFrame :=
  nd_map (clip1 lo hi) a.

(** [cv::minMaxIdx] on a CV_32F matrix: one pass with strict comparisons
    starting from (+inf, -inf); an empty matrix reports (0, 0).  The
    results are handed back as doubles. *)
Definition minmax_step (acc : spec_float * spec_float) (val : spec_float)
  : spec_float * spec_float :=
  let '(minVal, maxVal) := acc in
  (if F32.ltb val minVal then val else minVal,
   if F32.ltb maxVal val then val else maxVal).

Definition minMaxIdx (src : list spec_float) : spec_float * spec_float :=
  match src with
  | [] => (F64.of_Z 0, F64.of_Z 0)
  | _ =>
    let '(fminval, fmaxval) := fold_left minmax_step src (pos_inf, neg_inf) in
    (F64.of_float fminval, F64.of_float fmaxval)
  end.

(** [cv::normalize(src, dst, a, b, NORM_MINMAX)] with [dst = None], so the
    result type is the source's CV_32F:
<<
    dmin = MIN(a, b), dmax = MAX(a, b);
    scale = (dmax - dmin)*(smax - smin > DBL_EPSILON ? 1./(smax - smin) : 0);
    scale = (float)scale;
    shift = (float)dmin - (float)(smin*scale);
    src.convertTo(dst, CV_32F, scale, shift);   // dst = src*scale + shift
>>
*)
Definition scale_shift_of_minmax (smin smax : spec_float) (a b : Z)
  : spec_float * spec_float :=
  let dmin := F64.of_Z (Z.min a b) in
  let dmax := F64.of_Z (Z.max a b) in
  let spread := F64.sub smax smin in
  let scale :=
    F64.mul (F64.sub dmax dmin)
            (if F64.ltb F64.DBL_EPSILON spread
             then F64.div (F64.of_Z 1) spread
             else F64.of_Z 0) in
  let scale := F32.of_float scale in
  let shift :=
    F32.sub (F32.of_float dmin)
            (F32.of_float (F64.mul smin (F64.of_float scale))) in
  (scale, shift).

Definition normalize_scale_shift (src : list spec_float) (a b : Z)
  : spec_float * spec_float :=
  let '(smin, smax) := minMaxIdx src in
  scale_shift_of_minmax smin smax a b.

(** One element of [convertTo]: [src*scale + shift] in float32, written
    as the multiplication followed by the addition.  (A kernel that fuses
    the two rounds once; the 8-bit results are the same whenever the
    shift is +0 or the scale is 0, which is the case in every statement
    below.) *)
Definition convertTo1 (scale shift : spec_float) (x : spec_float) : spec_float :=
  F32.add (F32.mul x scale) shift.

Definition cv2_normalize (src : DepthFrame) (a b : Z) : DepthFrame :=
  let '(scale, shift) := normalize_scale_shift (nd_data src) a b in
  nd_map (convertTo1 scale shift) src.

(** [astype(np.uint8)]: the C conversion truncates toward zero; the
    integer is then reduced to eight bits (a value outside 0..255 wraps;
    NaN and the infinities, which C leaves undefined, are taken to 0). *)
Definition trunc (x : spec_float) : Z :=
  match x with
  | S754_finite s m e =>
    cond_Zopp s (match e with
                 | Z0 => Zpos m
                 | Zpos _ => Zpos m * 2 ^ e
                 | Zneg p => Zpos m / 2 ^ Zpos p
                 end)
  | _ => 0
  end.

Definition uint8_of_float (x : spec_float) : Z := trunc x mod 256.

Definition astype_uint8 (a : DepthFrame) : Image8 := nd_map uint8_of_float a.

(** The 8-bit grid that [process_depth_image] hands to the colormap. *)
Definition depth_8u (depth_np : DepthFrame) (clip_range : Z * Z) : Image8 :=
  let depth_np := np_nan_to_num depth_np in
  let depth_np_clipped := np_clip depth_np (fst clip_range) (snd clip_range) in
  let depth_normalized := cv2_normalize depth_np_clipped 0 255 in
  astype_uint8 depth_normalized.

(** [cv2.COLORMAP_JET]. *)
Definition COLORMAP_JET : Z := 2.

Section Colorizer.

(** The colormap tables of OpenCV: [palette colormap v] is the BGR
    triple that [cv2.applyColorMap] assigns to the 8-bit value [v]. *)
Variable palette : Z -> Z -> pixel.

Definition cv2_applyColorMap (src : Image8) (colormap : Z) : ColorImage :=
  nd_map (palette colormap) src.

Definition process_depth_image (depth_np : DepthFrame) (clip_range : Z * Z)
    (colormap : Z) : ColorImage :=
  let depth_np := np_nan_to_num depth_np in
  let depth_np_clipped := np_clip depth_np (fst clip_range) (snd clip_range) in
  let depth_normalized := cv2_normalize depth_np_clipped 0 255 in
  let depth_8u := astype_uint8 depth_normalized in
  let depth_color := cv2_applyColorMap depth_8u colormap in
  depth_color.

End Colorizer.

(** ** Python values the session code manipulates *)

(** The exceptions the program can raise: the [RuntimeError] of [start]
    and the [ValueError] of [int()]. *)
Inductive exn : Type :=
  | RuntimeError (msg : string)
  | ValueError.

Inductive outcome (A : Type) : Type :=
  | Ok (a : A)
  | Raise (e : exn).
Arguments Ok {A} _.
Arguments Raise {A} _.

(** A method body: it reads and mutates the object [S] and either returns
    or raises.  The state it leaves is returned in both cases. *)
Definition M (S A : Type) : Type := S -> outcome A * S.

Definition ret {S A : Type} (a : A) : M S A := fun s => (Ok a, s).

Definition raise {S A : Type} (e : exn) : M S A := fun s => (Raise e, s).

Definition bind {S A B : Type} (c : M S A) (k : A -> M S B) : M S B :=
  fun s =>
    match c s with
    | (Ok a, s') => k a s'
    | (Raise e, s') => (Raise e, s')
    end.

Definition gets {S A : Type} (f : S -> A) : M S A := fun s => (Ok (f s), s).

Definition modify {S : Type} (f : S -> S) : M S unit := fun s => (Ok tt, f s).

(** Run a method of an attribute object inside its owner. *)
Definition zoom {S T A : Type} (get : S -> T) (set : T -> S -> S) (c : M T A)
  : M S A :=
  fun s => let '(r, t') := c (get s) in (r, set t' s).

Notation "x <- c ;; k" := (bind c (fun x => k))
  (at level 100, c at next level, right associativity).
Notation "c ;;; k" := (bind c (fun _ => k))
  (at level 100, right associativity).

(** [x in [a, b, ...]] on strings. *)
Definition str_in (x : string) (l : list string) : bool :=
  existsb (String.eqb x) l.

(** *** [int(text)] on a string, base 10

    Surrounding whitespace is dropped, one sign is allowed, and the
    digits may be separated by single underscores.  Anything else is a
    [ValueError] ([None] here).  The model reads ASCII text. *)
Definition is_space (c : ascii) : bool :=
  let n := Z.of_nat (nat_of_ascii c) in
  ((9 <=? n) && (n <=? 13)) || ((28 <=? n) && (n <=? 32)).

Definition digit_val (c : ascii) : option Z :=
  let n := Z.of_nat (nat_of_ascii c) in
  if (48 <=? n) && (n <=? 57) then Some (n - 48) else None.


Fixpoint lstrip (s : list ascii) : list ascii :=
  match s with
  | c :: s' => if is_space c then lstrip s' else s
  | [] => []
  end.

Definition strip (s : list ascii) : list ascii :=
  rev (lstrip (rev (lstrip s))).

Fixpoint int_digits (acc : Z) (after_digit : bool) (s : list ascii) : option Z :=
  match s with
  | [] => if after_digit then Some acc else None
  | c :: s' =>
    match digit_val c with
    | Some d => int_digits (10 * acc + d) true s'
    | None =>
      if Ascii.eqb c "_" && after_digit then int_digits acc false s' else None
    end
  end.

Definition py_int (text : string) : option Z :=
  match strip (list_ascii_of_string text) with
  | c :: rest =>
    if Ascii.eqb c "+" then int_digits 0 false rest
    else if Ascii.eqb c "-" then Z.opp <$> int_digits 0 false rest
    else int_digits 0 false (c :: rest)
  | [] => None
  end.

(** ** The camera SDK ([pyzed.sl]) *)

Inductive RESOLUTION : Type := HD1080 | HD720 | VGA.

Inductive ERROR_CODE : Type :=
  | SUCCESS
  | FAILURE (code : Z).

Definition is_success (c : ERROR_CODE) : bool :=
  match c with SUCCESS => true | FAILURE _ => false end.

(** [sl.InitParameters]: the two fields the program sets. *)
Record InitParameters : Type := {
  camera_resolution : RESOLUTION;
  camera_fps : Z
}.

(** The device behind an [sl.Camera] handle is opaque: opening, grabbing
    and closing answer with an error code and move the device to a new
    state; [retrieve_measure] fills the matrix with the depth measure of
    the last grab. *)
Class CameraSDK (Camera : Type) : Type := {
  sl_open : InitParameters -> Camera -> ERROR_CODE * Camera;
  sl_grab : Camera -> ERROR_CODE * Camera;
  sl_retrieve_measure : Camera -> DepthFrame * Camera;
  sl_close : Camera -> Camera
}.

(** What a [QLabel] shows: the RGB pixel buffer of a [QPixmap]. *)
Definition QPixmap : Type := ndarray pixel.

(** The combo boxes are filled once in [DualZEDViewer.__init__] and are
    not editable, so their current text is one of their items. *)
Inductive res_item : Type := Item_HD1080 | Item_HD720 | Item_VGA.
Inductive fps_item : Type := Item_15 | Item_30.
Inductive mode_item : Type := Item_Both | Item_Camera1 | Item_Camera2.

Definition res_text (i : res_item) : string :=
  match i with
  | Item_HD1080 => "HD1080"
  | Item_HD720 => "HD720"
  | Item_VGA => "VGA"
  end.

Definition fps_text (i : fps_item) : string :=
  match i with Item_15 => "15" | Item_30 => "30" end.

Definition mode_text (i : mode_item) : string :=
  match i with
  | Item_Both => "Both Cameras"
  | Item_Camera1 => "Camera 1 Only"
  | Item_Camera2 => "Camera 2 Only"
  end.

Section Viewer.

Context {Camera : Type} `{SDK : CameraSDK Camera}.
Variable palette : Z -> Z -> pixel.

(** *** class ZEDCameraViewer *)

Record ZEDCameraViewer : Type := {
  camera : Camera;
  init_params : InitParameters;
  depth_mat : DepthFrame;
  running : bool;
  clip_range : Z * Z;
  colormap : Z
}.

Definition with_camera (c : Camera) (v : ZEDCameraViewer) : ZEDCameraViewer :=
  {| camera := c; init_params := init_params v; depth_mat := depth_mat v;
     running := running v; clip_range := clip_range v; colormap := colormap v |}.

Definition with_init_params (p : InitParameters) (v : ZEDCameraViewer)
  : ZEDCameraViewer :=
  {| camera := camera v; init_params := p; depth_mat := depth_mat v;
     running := running v; clip_range := clip_range v; colormap := colormap v |}.

Definition with_depth_mat (d : DepthFrame) (v : ZEDCameraViewer) : ZEDCameraViewer :=
  {| camera := camera v; init_params := init_params v; depth_mat := d;
     running := running v; clip_range := clip_range v; colormap := colormap v |}.

Definition with_running (b : bool) (v : ZEDCameraViewer) : ZEDCameraViewer :=
  {| camera := camera v; init_params := init_params v; depth_mat := depth_mat v;
     running := b; clip_range := clip_range v; colormap := colormap v |}.

Definition with_clip_range (r : Z * Z) (v : ZEDCameraViewer) : ZEDCameraViewer :=
  {| camera := camera v; init_params := init_params v; depth_mat := depth_mat v;
     running := running v; clip_range := r; colormap := colormap v |}.

(** [__init__(self, clip_range=(0, 5000), colormap=cv2.COLORMAP_JET)];
    [cam], [params] and [mat] are the fresh [sl.Camera()],
    [sl.InitParameters()] and [sl.Mat()]. *)
Definition ZEDCameraViewer_init (cam : Camera) (params : InitParameters)
    (mat : DepthFrame) : ZEDCameraViewer :=
  {| camera := cam; init_params := params; depth_mat := mat;
     running := false; clip_range := (0, 5000); colormap := COLORMAP_JET |}.

Definition resolutions : gmap string RESOLUTION :=
  {[ "HD1080" := HD1080; "HD720" := HD720; "VGA" := VGA ]}.

Definition set_resolution (resolution_text : string) : M ZEDCameraViewer unit :=
  modify (fun self =>
    with_init_params
      {| camera_resolution := default HD720 (resolutions !! resolution_text);
         camera_fps := camera_fps (init_params self) |} self).

Definition set_fps (fps_text : string) : M ZEDCameraViewer unit :=
  match py_int fps_text with
  | Some n =>
    modify (fun self =>
      with_init_params
        {| camera_resolution := camera_resolution (init_params self);
           camera_fps := n |} self)
  | None => raise ValueError
  end.

Definition set_clip_range (clip_min clip_max : Z) : M ZEDCameraViewer unit :=
  modify (with_clip_range (clip_min, clip_max)).

(** Call an SDK function on [self.camera]. *)
Definition on_camera {A : Type} (f : Camera -> A * Camera) : M ZEDCameraViewer A :=
  fun self => let '(a, c) := f (camera self) in (Ok a, with_camera c self).

Definition start : M ZEDCameraViewer unit :=
  params <- gets init_params ;;
  code <- on_camera (sl_open params) ;;
  if negb (is_success code)
  then raise (RuntimeError "카메라 열기 실패")
  else modify (with_running true).

Definition stop : M ZEDCameraViewer unit :=
  modify (with_running false) ;;;
  on_camera (fun c => (tt, sl_close c)).

Definition get_depth_image : M ZEDCameraViewer (option ColorImage) :=
  is_running <- gets running ;;
  if negb is_running then ret None
  else
    code <- on_camera sl_grab ;;
    if is_success code then
      mat <- on_camera sl_retrieve_measure ;;
      modify (with_depth_mat mat) ;;;
      depth_np <- gets depth_mat ;;
      let h := nd_h depth_np in
      let w := nd_w depth_np in
      if (h =? 0)%nat || (w =? 0)%nat then ret None
      else
        range <- gets clip_range ;;
        cmap <- gets colormap ;;
        ret (Some (process_depth_image palette depth_np range cmap))
    else ret None.

(** [n] successive calls of [get_depth_image] on one session: what each
    call returned, and the session afterwards. *)
Fixpoint poll (n : nat) (self : ZEDCameraViewer)
  : list (outcome (option ColorImage)) * ZEDCameraViewer :=
  match n with
  | O => ([], self)
  | S n' =>
    let '(r, self') := get_depth_image self in
    let '(rs, self'') := poll n' self' in
    (r :: rs, self'')
  end.

(** *** class DualZEDViewer *)

Record DualZEDViewer : Type := {
  viewer1 : ZEDCameraViewer;
  viewer2 : ZEDCameraViewer;
  res_combo1 : res_item;
  res_combo2 : res_item;
  fps_combo1 : fps_item;
  fps_combo2 : fps_item;
  clip_min_box : Z;
  clip_max_box : Z;
  camera_selector : mode_item;
  image_label1 : option QPixmap;
  image_label2 : option QPixmap;
  timer : option Z
}.

Definition with_viewer1 (v : ZEDCameraViewer) (w : DualZEDViewer) : DualZEDViewer :=
  {| viewer1 := v; viewer2 := viewer2 w;
     res_combo1 := res_combo1 w; res_combo2 := res_combo2 w;
     fps_combo1 := fps_combo1 w; fps_combo2 := fps_combo2 w;
     clip_min_box := clip_min_box w; clip_max_box := clip_max_box w;
     camera_selector := camera_selector w;
     image_label1 := image_label1 w; image_label2 := image_label2 w;
     timer := timer w |}.

Definition with_viewer2 (v : ZEDCameraViewer) (w : DualZEDViewer) : DualZEDViewer :=
  {| viewer1 := viewer1 w; viewer2 := v;
     res_combo1 := res_combo1 w; res_combo2 := res_combo2 w;
     fps_combo1 := fps_combo1 w; fps_combo2 := fps_combo2 w;
     clip_min_box := clip_min_box w; clip_max_box := clip_max_box w;
     camera_selector := camera_selector w;
     image_label1 := image_label1 w; image_label2 := image_label2 w;
     timer := timer w |}.

Definition with_image_label1 (p : option QPixmap) (w : DualZEDViewer)
  : DualZEDViewer :=
  {| viewer1 := viewer1 w; viewer2 := viewer2 w;
     res_combo1 := res_combo1 w; res_combo2 := res_combo2 w;
     fps_combo1 := fps_combo1 w; fps_combo2 := fps_combo2 w;
     clip_min_box := clip_min_box w; clip_max_box := clip_max_box w;
     camera_selector := camera_selector w;
     image_label1 := p; image_label2 := image_label2 w;
     timer := timer w |}.

Definition with_image_label2 (p : option QPixmap) (w : DualZEDViewer)
  : DualZEDViewer :=
  {| viewer1 := viewer1 w; viewer2 := viewer2 w;
     res_combo1 := res_combo1 w; res_combo2 := res_combo2 w;
     fps_combo1 := fps_combo1 w; fps_combo2 := fps_combo2 w;
     clip_min_box := clip_min_box w; clip_max_box := clip_max_box w;
     camera_selector := camera_selector w;
     image_label1 := image_label1 w; image_label2 := p;
     timer := timer w |}.

Definition with_timer (t : option Z) (w : DualZEDViewer) : DualZEDViewer :=
  {| viewer1 := viewer1 w; viewer2 := viewer2 w;
     res_combo1 := res_combo1 w; res_combo2 := res_combo2 w;
     fps_combo1 := fps_combo1 w; fps_combo2 := fps_combo2 w;
     clip_min_box := clip_min_box w; clip_max_box := clip_max_box w;
     camera_selector := camera_selector w;
     image_label1 := image_label1 w; image_label2 := image_label2 w;
     timer := t |}.

(** [self.viewer1.<method>(...)] and [self.viewer2.<method>(...)]. *)
Definition on_viewer1 {A : Type} (c : M ZEDCameraViewer A) : M DualZEDViewer A :=
  zoom viewer1 with_viewer1 c.

Definition on_viewer2 {A : Type} (c : M ZEDCameraViewer A) : M DualZEDViewer A :=
  zoom viewer2 with_viewer2 c.

(** [DualZEDViewer.__init__]: both sessions closed, the first item of
    every combo box current, the spin boxes at 0 and 1000, empty image
    labels, the timer created but not started. *)
Definition DualZEDViewer_init (cam1 cam2 : Camera) (params : InitParameters)
    (mat : DepthFrame) : DualZEDViewer :=
  {| viewer1 := ZEDCameraViewer_init cam1 params mat;
     viewer2 := ZEDCameraViewer_init cam2 params mat;
     res_combo1 := Item_HD1080; res_combo2 := Item_HD1080;
     fps_combo1 := Item_15; fps_combo2 := Item_15;
     clip_min_box := 0; clip_max_box := 1000;
     camera_selector := Item_Both;
     image_label1 := None; image_label2 := None;
     timer := None |}.

(** [cv2.cvtColor(img, cv2.COLOR_BGR2RGB)] wrapped in a [QPixmap]. *)
Definition BGR2RGB (p : pixel) : pixel :=
  let '(b, g, r) := p in (r, g, b).

Definition cv_to_pixmap (img : ColorImage) : QPixmap := nd_map BGR2RGB img.

Definition start_viewing : M DualZEDViewer unit :=
  clip_min <- gets clip_min_box ;;
  clip_max <- gets clip_max_box ;;
  res1 <- gets res_combo1 ;;
  on_viewer1 (set_resolution (res_text res1)) ;;;
  res2 <- gets res_combo2 ;;
  on_viewer2 (set_resolution (res_text res2)) ;;;
  fps1 <- gets fps_combo1 ;;
  on_viewer1 (set_fps (fps_text fps1)) ;;;
  fps2 <- gets fps_combo2 ;;
  on_viewer2 (set_fps (fps_text fps2)) ;;;
  on_viewer1 (set_clip_range clip_min clip_max) ;;;
  on_viewer2 (set_clip_range clip_min clip_max) ;;;
  selected_mode <- gets (fun self => mode_text (camera_selector self)) ;;
  (if str_in selected_mode ["Both Cameras"; "Camera 1 Only"]
   then on_viewer1 start
   else modify (with_image_label1 None)) ;;;
  (if str_in selected_mode ["Both Cameras"; "Camera 2 Only"]
   then on_viewer2 start
   else modify (with_image_label2 None)) ;;;
  modify (with_timer (Some 30)).

Definition update_images : M DualZEDViewer unit :=
  selected_mode <- gets (fun self => mode_text (camera_selector self)) ;;
  (if str_in selected_mode ["Both Cameras"; "Camera 1 Only"]
   then
     img1 <- on_viewer1 get_depth_image ;;
     match img1 with
     | Some img => modify (with_image_label1 (Some (cv_to_pixmap img)))
     | None => ret tt
     end
   else ret tt) ;;;
  (if str_in selected_mode ["Both Cameras"; "Camera 2 Only"]
   then
     img2 <- on_viewer2 get_depth_image ;;
     match img2 with
     | Some img => modify (with_image_label2 (Some (cv_to_pixmap img)))
     | None => ret tt
     end
   else ret tt).

(** [self.timer.timeout.connect(self.update_images)]: the slot runs on
    a timeout, and a timer that was never started does not time out. *)
Definition on_timeout : M DualZEDViewer unit :=
  active <- gets timer ;;
  match active with
  | Some _ => update_images
  | None => ret tt
  end.

End Viewer.

Arguments ZEDCameraViewer Camera : clear implicits.
Arguments DualZEDViewer Camera : clear implicits.

(** ** A scripted device

    A concrete [CameraSDK] used to run the program on examples: the
    device either can or cannot be opened, answers successive grabs from
    a script ([Some frame]: the grab succeeds with that depth measure,
    [None]: the grab fails), and logs every SDK call it receives. *)
Module Scripted.

Inductive sdk_call : Type :=
  | CallOpen (p : InitParameters)
  | CallGrab
  | CallRetrieve
  | CallClose.

Record Camera : Type := {
  can_open : bool;
  script : list (option DepthFrame);
  measure : DepthFrame;
  calls : list sdk_call
}.

Definition log (c : sdk_call) (cam : Camera) : Camera :=
  {| can_open := can_open cam; script := script cam; measure := measure cam;
     calls := calls cam ++ [c] |}.

Definition open (p : InitParameters) (cam : Camera) : ERROR_CODE * Camera :=
  (if can_open cam then SUCCESS else FAILURE 1, log (CallOpen p) cam).

Definition grab (cam : Camera) : ERROR_CODE * Camera :=
  match script cam with
  | Some f :: rest =>
    (SUCCESS, log CallGrab {| can_open := can_open cam; script := rest;
                              measure := f; calls := calls cam |})
  | None :: rest =>
    (FAILURE 1, log CallGrab {| can_open := can_open cam; script := rest;
                                measure := measure cam; calls := calls cam |})
  | [] => (FAILURE 1, log CallGrab cam)
  end.

Definition retrieve_measure (cam : Camera) : DepthFrame * Camera :=
  (measure cam, log CallRetrieve cam).

Definition close (cam : Camera) : Camera := log CallClose cam.

#[global] Instance sdk : CameraSDK Camera := {|
  sl_open := open;
  sl_grab := grab;
  sl_retrieve_measure := retrieve_measure;
  sl_close := close
|}.

Definition empty_mat : DepthFrame := NDArray 0 0 [].

Definition default_params : InitParameters :=
  {| camera_resolution := HD720; camera_fps := 0 |}.

(** A device that opens and delivers the frames [fs], and one that
    cannot be opened. *)
Definition healthy (fs : list DepthFrame) : Camera :=
  {| can_open := true; script := map Some fs; measure := empty_mat; calls := [] |}.

Definition unavailable : Camera :=
  {| can_open := false; script := []; measure := empty_mat; calls := [] |}.

(** A grey palette: the value on all three channels. *)
Definition grey (colormap v : Z) : pixel := (v, v, v).

End Scripted.

(** ** Vocabulary of the statements *)

(** The grid after the NaN/Inf replacement and the clipping. *)
Definition clipped (frame : DepthFrame) (clip_range : Z * Z) : list spec_float :=
  nd_data (np_clip (np_nan_to_num frame) (fst clip_range) (snd clip_range)).

(** Structural equality of two floating-point values. *)
Definition sf_same (x y : spec_float) : bool :=
  match x, y with
  | S754_zero s1, S754_zero s2 => Bool.eqb s1 s2
  | S754_infinity s1, S754_infinity s2 => Bool.eqb s1 s2
  | S754_nan, S754_nan => true
  | S754_finite s1 m1 e1, S754_finite s2 m2 e2 =>
    Bool.eqb s1 s2 && (m1 =? m2)%positive && (e1 =? e2)
  | _, _ => false
  end.

(** Every two samples compare equal ([==] of IEEE-754). *)
Definition uniformb (l : list spec_float) : bool :=
  forallb (fun x => forallb (fun y => SFeqb x y) l) l.

Definition is_nan_or_inf (x : spec_float) : bool :=
  match x with
  | S754_nan | S754_infinity _ => true
  | _ => false
  end.

(** The spread of the grid does not exceed [DBL_EPSILON]: the branch of
    [normalize] that sets the scale to 0. *)
Definition flat (l : list spec_float) : bool :=
  let '(smin, smax) := minMaxIdx l in
  negb (F64.ltb F64.DBL_EPSILON (F64.sub smax smin)).

(** The clipped grid has minimum 0 (of either sign) and maximum [M]. *)
Definition spans (l : list spec_float) (M : Z) : bool :=
  let '(smin, smax) := minMaxIdx l in
  is_zero smin && sf_same smax (F64.of_Z M).


Definition is_finite (x : spec_float) : bool :=
  match x with S754_finite _ _ _ => true | _ => false end.

Definition is_pos_finite (x : spec_float) : bool :=
  match x with S754_finite false _ _ => true | _ => false end.

(** The check behind the range statement, for one maximum [M]: [M] is a
    positive float32 that [minMaxIdx] reports as the double [M]; the scale
    is finite, the shift is +0, and the maximum is sent to 255 or 254. *)
Definition span_check (M : Z) : bool :=
  let '(scale, shift) := scale_shift_of_minmax pos_zero (F64.of_Z M) 0 255 in
  let top := uint8_of_float (convertTo1 scale shift (F32.of_Z M)) in
  is_finite scale && sf_same shift pos_zero && ((top =? 255) || (top =? 254))
  && is_pos_finite (F32.of_Z M)
  && sf_same (F64.of_float (F32.of_Z M)) (F64.of_Z M).

(** [span_check] on the [n] integers from [M] upwards. *)
Fixpoint span_check_from (n : nat) (M : Z) : bool :=
  match n with
  | O => true
  | S n' => span_check M && span_check_from n' (M + 1)
  end.

(** The mapping the specification gives for resolution tokens. *)
Definition spec_resolution (token : string) : RESOLUTION :=
  if String.eqb token "HD1080" then HD1080
  else if String.eqb token "HD720" then HD720
  else if String.eqb token "VGA" then VGA
  else HD720.

(** What the items of the combo boxes stand for. *)
Definition res_value (i : res_item) : RESOLUTION :=
  match i with
  | Item_HD1080 => HD1080
  | Item_HD720 => HD720
  | Item_VGA => VGA
  end.

Definition fps_value (i : fps_item) : Z :=
  match i with Item_15 => 15 | Item_30 => 30 end.

(** Which sessions a display mode selects. *)
Definition selects1 (m : mode_item) : bool :=
  match m with Item_Both | Item_Camera1 => true | Item_Camera2 => false end.

Definition selects2 (m : mode_item) : bool :=
  match m with Item_Both | Item_Camera2 => true | Item_Camera1 => false end.

(** What a pane shows after a poll that returned [r]. *)
Definition pane_after (r : outcome (option ColorImage)) (before : option QPixmap)
  : option QPixmap :=
  match r with
  | Ok (Some img) => Some (cv_to_pixmap img)
  | _ => before
  end.

Section Vocabulary.
Context {Camera : Type} `{SDK : CameraSDK Camera}.

(** The parameters [start_viewing] hands to [open] for each session. *)
Definition params1 (w : DualZEDViewer Camera) : InitParameters :=
  {| camera_resolution := res_value (res_combo1 w);
     camera_fps := fps_value (fps_combo1 w) |}.

Definition params2 (w : DualZEDViewer Camera) : InitParameters :=
  {| camera_resolution := res_value (res_combo2 w);
     camera_fps := fps_value (fps_combo2 w) |}.

(** The device answers [open] with SUCCESS. *)
Definition opens (p : InitParameters) (c : Camera) : bool :=
  is_success (fst (sl_open p c)).

(** A session after the setters of [start_viewing]. *)
Definition configured (p : InitParameters) (clip : Z * Z) (v : ZEDCameraViewer Camera)
  : ZEDCameraViewer Camera :=
  {| camera := camera v; init_params := p; depth_mat := depth_mat v;
     running := running v; clip_range := clip; colormap := colormap v |}.

(** The operator picks an item of the camera selector. *)
Definition select_mode (m : mode_item) (w : DualZEDViewer Camera)
  : DualZEDViewer Camera :=
  {| viewer1 := viewer1 w; viewer2 := viewer2 w;
     res_combo1 := res_combo1 w; res_combo2 := res_combo2 w;
     fps_combo1 := fps_combo1 w; fps_combo2 := fps_combo2 w;
     clip_min_box := clip_min_box w; clip_max_box := clip_max_box w;
     camera_selector := m;
     image_label1 := image_label1 w; image_label2 := image_label2 w;
     timer := timer w |}.

End Vocabulary.

(** ** Example inputs *)

(** The frame of the specification's scenario. *)
Definition scenario_frame : DepthFrame :=
  NDArray 2 3 [F32.of_Z 0; F32.of_Z 500; F32.of_Z 1000;
               S754_nan; F32.of_Z (-50); F32.of_Z 2000].


(** One row holding 0.0 and 2^-70, two distinct float32 values. *)
Definition frame_tiny : DepthFrame :=
  NDArray 1 2 [F32.of_Z 0; S754_finite false 8388608 (-93)].

(** A frame of invalid readings only. *)
Definition frame_invalid : DepthFrame := NDArray 1 3 [S754_nan; pos_inf; neg_inf].

(** A fresh session on a scripted device. *)
Definition fresh_session (cam : Scripted.Camera) : ZEDCameraViewer Scripted.Camera :=
  ZEDCameraViewer_init cam Scripted.default_params Scripted.empty_mat.

(** The window as constructed, both devices healthy. *)
Definition both_healthy : DualZEDViewer Scripted.Camera :=
  DualZEDViewer_init (Scripted.healthy [scenario_frame])
    (Scripted.healthy [scenario_frame])
    Scripted.default_params Scripted.empty_mat.

(** The window as constructed ("Both Cameras"), camera 1 cannot be opened,
    camera 2 is healthy. *)
Definition both_cam1_down : DualZEDViewer Scripted.Camera :=
  DualZEDViewer_init Scripted.unavailable (Scripted.healthy [scenario_frame])
    Scripted.default_params Scripted.empty_mat.

(** The controller after [start_viewing] on that state. *)
Definition after_failed_start : DualZEDViewer Scripted.Camera :=
  snd (start_viewing both_cam1_down).

(** The same devices with "Camera 2 Only" selected. *)
Definition cam2_only_cam1_down : DualZEDViewer Scripted.Camera :=
  select_mode Item_Camera2 both_cam1_down.

(** ** Vocabulary of the further statements *)

(** A value the spin boxes can hold: [setRange(0, 10000)]. *)
Definition spin_value (z : Z) : Prop := 0 <= z <= 10000.

(** [F32.of_Z] grows on each of the [n] steps from [M]. *)
Fixpoint increasing_from (n : nat) (M : Z) : bool :=
  match n with
  | O => true
  | S n' => SFltb (F32.of_Z M) (F32.of_Z (M + 1)) && increasing_from n' (M + 1)
  end.

(** Every cleaned sample of the frame lies strictly between the bounds. *)
Definition strictly_inside (lo hi : Z) (frame : DepthFrame) : bool :=
  forallb (fun x => SFltb (F32.of_Z lo) (nan_to_num1 x)
                    && SFltb (nan_to_num1 x) (F32.of_Z hi))
          (nd_data frame).

Section Widgets.
Context {Camera : Type} `{SDK : CameraSDK Camera}.

(** The operator edits the configuration widgets: the four combo boxes
    and the two spin boxes. *)
Definition edit_widgets (r1 r2 : res_item) (f1 f2 : fps_item) (cmin cmax : Z)
    (w : DualZEDViewer Camera) : DualZEDViewer Camera :=
  {| viewer1 := viewer1 w; viewer2 := viewer2 w;
     res_combo1 := r1; res_combo2 := r2;
     fps_combo1 := f1; fps_combo2 := f2;
     clip_min_box := cmin; clip_max_box := cmax;
     camera_selector := camera_selector w;
     image_label1 := image_label1 w; image_label2 := image_label2 w;
     timer := timer w |}.

(** Every device the current mode selects answers [open] with SUCCESS. *)
Definition selected_open (w : DualZEDViewer Camera) : bool :=
  (negb (selects1 (camera_selector w)) || opens (params1 w) (camera (viewer1 w)))
  && (negb (selects2 (camera_selector w)) || opens (params2 w) (camera (viewer2 w))).

End Widgets.

(** One row holding 200.0, 500.0 and 800.0. *)
Definition frame_mid : DepthFrame :=
  NDArray 1 3 [F32.of_Z 200; F32.of_Z 500; F32.of_Z 800].

(** A fresh session after a successful [start] on a device that delivers
    the scenario frame. *)
Definition open_session : ZEDCameraViewer Scripted.Camera :=
  snd (start (fresh_session (Scripted.healthy [scenario_frame]))).

(** * Properties *)

(** ** Floating-point facts *)

Lemma sf_same_eq x y : sf_same x y = true <-> x = y.
Proof.
  destruct x as [s1|s1| |s1 m1 e1], y as [s2|s2| |s2 m2 e2]; simpl;
    try (split; [discriminate | congruence]); try tauto.
  - rewrite Bool.eqb_true_iff. split; congruence.
  - rewrite Bool.eqb_true_iff. split; congruence.
  - rewrite !andb_true_iff, Bool.eqb_true_iff, Pos.eqb_eq, Z.eqb_eq.
    split; [intros [[-> ->] ->]; reflexivity | intros [= -> -> ->]; auto].
Qed.

Lemma spec_float_nan_dec (c : spec_float) : {c = S754_nan} + {c <> S754_nan}.
Proof. destruct c; (left; reflexivity) || (right; discriminate). Qed.

Lemma sub_self_not_above_eps d :
  F64.ltb F64.DBL_EPSILON (F64.sub d d) = false.
Proof.
  destruct d as [s|s| |s m e]; try (destruct s; reflexivity); try reflexivity.
  unfold F64.sub, SFsub. rewrite Z.sub_diag. reflexivity.
Qed.

Lemma SFcompare_refl c : c <> S754_nan -> SFcompare c c = Some Eq.
Proof.
  destruct c as [s|s| |s m e]; try destruct s; simpl; try congruence;
    intros _; rewrite Z.compare_refl, Pos.compare_cont_refl; reflexivity.
Qed.

Lemma SFcompare_Eq_sym x y : SFcompare x y = Some Eq -> SFcompare y x = Some Eq.
Proof.
  destruct x as [s1|s1| |s1 m1 e1], y as [s2|s2| |s2 m2 e2]; simpl;
    try destruct s1; try destruct s2; try discriminate; auto.
  - destruct (e1 ?= e2) eqn:He; try discriminate.
    apply Z.compare_eq in He; subst. rewrite Z.compare_refl.
    intros [= H]. f_equal.
    destruct (Pos.compare_cont Eq m1 m2) eqn:Hm; try discriminate.
    apply Pos.compare_eq in Hm. subst. rewrite Pos.compare_cont_refl. reflexivity.
  - destruct (e1 ?= e2) eqn:He; try discriminate.
    apply Z.compare_eq in He; subst. rewrite Z.compare_refl.
    intros [= H].
    destruct (Pos.compare_cont Eq m1 m2) eqn:Hm; try discriminate.
    apply Pos.compare_eq in Hm. subst. rewrite Pos.compare_cont_refl. reflexivity.
Qed.

(** ** The extrema of a uniform grid *)

Lemma minmax_first v :
  SFcompare v v = Some Eq -> minmax_step (pos_inf, neg_inf) v = (v, v).
Proof.
  destruct v as [s|s| |s m e]; try destruct s; simpl; try discriminate; reflexivity.
Qed.

Lemma minmax_uniform l v :
  (forall y, In y l -> SFcompare y v = Some Eq) ->
  fold_left minmax_step l (v, v) = (v, v).
Proof.
  induction l as [|y l IH]; intros H; [reflexivity|].
  simpl. unfold F32.ltb, SFltb.
  rewrite (H y (or_introl eq_refl)).
  rewrite (SFcompare_Eq_sym _ _ (H y (or_introl eq_refl))).
  apply IH. intros z Hz. apply H. right. exact Hz.
Qed.

Lemma minmax_all_nan l acc :
  (forall y, In y l -> y = S754_nan) -> fold_left minmax_step l acc = acc.
Proof.
  revert acc. induction l as [|y l IH]; intros acc H; [reflexivity|].
  simpl. rewrite (H y (or_introl eq_refl)).
  destruct acc as [a b]. unfold minmax_step, F32.ltb, SFltb. simpl.
  replace (SFcompare b S754_nan) with (@None comparison) by (destruct b; reflexivity).
  apply IH. intros z Hz. apply H. right. exact Hz.
Qed.

Lemma uniformb_spec l :
  uniformb l = true -> forall x y, In x l -> In y l -> SFcompare x y = Some Eq.
Proof.
  unfold uniformb. intros H x y Hx Hy.
  rewrite forallb_forall in H. specialize (H x Hx).
  rewrite forallb_forall in H. specialize (H y Hy).
  unfold SFeqb in H. destruct (SFcompare x y) as [[]|]; try discriminate. reflexivity.
Qed.

Lemma minMaxIdx_uniform l :
  uniformb l = true -> exists d, minMaxIdx l = (d, d).
Proof.
  intros H. destruct l as [|v l]; [eexists; reflexivity|].
  pose proof (uniformb_spec _ H) as U.
  unfold minMaxIdx.
  change (fold_left minmax_step (v :: l) (pos_inf, neg_inf))
    with (fold_left minmax_step l (minmax_step (pos_inf, neg_inf) v)).
  rewrite minmax_first by (apply U; left; reflexivity).
  rewrite minmax_uniform.
  - eexists; reflexivity.
  - intros y Hy. apply U; [right; exact Hy | left; reflexivity].
Qed.

Lemma uniform_flat l : uniformb l = true -> flat l = true.
Proof.
  intros H. destruct (minMaxIdx_uniform l H) as [d Hd].
  unfold flat. rewrite Hd, sub_self_not_above_eps. reflexivity.
Qed.

Lemma constant_flat l c : (forall y, In y l -> y = c) -> flat l = true.
Proof.
  intros H. destruct (spec_float_nan_dec c) as [-> | Hc].
  - unfold flat, minMaxIdx. destruct l as [|v l]; [reflexivity|].
    rewrite minmax_all_nan by exact H. reflexivity.
  - apply uniform_flat. unfold uniformb.
    apply forallb_forall. intros x Hx. apply forallb_forall. intros y Hy.
    rewrite (H x Hx), (H y Hy). unfold SFeqb.
    rewrite SFcompare_refl by exact Hc. reflexivity.
Qed.

(** When the spread does not exceed [DBL_EPSILON] the scale is +0 and the
    shift is +0 or NaN, and every sample is sent to 0. *)
Lemma scale_shift_flat smin smax :
  F64.ltb F64.DBL_EPSILON (F64.sub smax smin) = false ->
  exists shift, scale_shift_of_minmax smin smax 0 255 = (pos_zero, shift) /\
                (shift = pos_zero \/ shift = S754_nan).
Proof.
  intros H. unfold scale_shift_of_minmax. rewrite H.
  destruct smin as [s|s| |s m e]; try destruct s; eexists; (split; [reflexivity|]);
    vm_compute; auto.
Qed.

Lemma convert_flat shift x :
  shift = pos_zero \/ shift = S754_nan ->
  uint8_of_float (convertTo1 pos_zero shift x) = 0.
Proof.
  intros [-> | ->]; destruct x as [s|s| |s m e]; try destruct s; reflexivity.
Qed.

Lemma flat_frame_zero palette frame clip_range colormap :
  flat (clipped frame clip_range) = true ->
  process_depth_image palette frame clip_range colormap
  = nd_map (fun _ => palette colormap 0) frame.
Proof.
  intros H. unfold flat in H.
  unfold process_depth_image, cv2_applyColorMap, astype_uint8, cv2_normalize,
    normalize_scale_shift.
  fold (clipped frame clip_range).
  destruct (minMaxIdx (clipped frame clip_range)) as [smin smax].
  apply negb_true_iff in H.
  destruct (scale_shift_flat smin smax H) as (shift & -> & Hs).
  unfold nd_map. simpl. f_equal.
  rewrite !map_map. apply map_ext. intros x.
  rewrite convert_flat by exact Hs. reflexivity.
Qed.

(** ** The depth colorizer *)

(** C1. On the scenario frame [[0, 500, 1000], [NaN, -50, 2000]] with the
    clip range (0, 1000), [process_depth_image] goes through the stages
    the specification lists: the clipped grid is [[0, 500, 1000],
    [0, 0, 1000]], its extrema are 0 and 1000, the 8-bit grid is
    [[0, 127, 255], [0, 0, 255]], and the result is the palette applied
    to that grid, value by value. *)
Theorem scenario_pipeline (palette : Z -> Z -> pixel) (colormap : Z) :
  np_clip (np_nan_to_num scenario_frame) 0 1000
    = NDArray 2 3 (map F32.of_Z [0; 500; 1000; 0; 0; 1000]) /\
  minMaxIdx (clipped scenario_frame (0, 1000)) = (F64.of_Z 0, F64.of_Z 1000) /\
  depth_8u scenario_frame (0, 1000) = NDArray 2 3 [0; 127; 255; 0; 0; 255] /\
  process_depth_image palette scenario_frame (0, 1000) colormap
    = NDArray 2 3 (map (palette colormap) [0; 127; 255; 0; 0; 255]).
Proof.
  repeat split; vm_compute; reflexivity.
Qed.

(** C3. A frame that is uniform after the NaN/Inf replacement and the
    clipping is rendered as the palette's colour for 0 at every pixel.
    That covers every frame of NaN/Inf readings only and every frame
    holding one value throughout (whatever the value and the clip range).
    The scale is 0 on that branch: nothing is divided by zero. *)
Theorem uniform_frame_palette_zero (palette : Z -> Z -> pixel) (colormap : Z)
    (frame : DepthFrame) (clip_range : Z * Z) :
  uniformb (clipped frame clip_range) = true
  \/ forallb is_nan_or_inf (nd_data frame) = true
  \/ (exists V, forallb (sf_same V) (nd_data frame) = true) ->
  process_depth_image palette frame clip_range colormap
  = nd_map (fun _ => palette colormap 0) frame.
Proof.
  intros H. apply flat_frame_zero.
  destruct H as [H | [H | [V H]]].
  - apply uniform_flat, H.
  - apply (constant_flat _ (clip1 (fst clip_range) (snd clip_range) pos_zero)).
    unfold clipped, np_clip, np_nan_to_num, nd_map. simpl. rewrite map_map.
    intros y Hy. apply in_map_iff in Hy. destruct Hy as (x & <- & Hx).
    rewrite forallb_forall in H. specialize (H x Hx).
    destruct x; try discriminate; reflexivity.
  - apply (constant_flat _ (clip1 (fst clip_range) (snd clip_range) (nan_to_num1 V))).
    unfold clipped, np_clip, np_nan_to_num, nd_map. simpl. rewrite map_map.
    intros y Hy. apply in_map_iff in Hy. destruct Hy as (x & <- & Hx).
    rewrite forallb_forall in H. specialize (H x Hx).
    apply sf_same_eq in H. subst. reflexivity.
Qed.

Lemma uniform_frame_palette_zero_witness :
  forallb is_nan_or_inf (nd_data frame_invalid) = true /\
  process_depth_image Scripted.grey frame_invalid (0, 1000) COLORMAP_JET
  = NDArray 1 3 [(0, 0, 0); (0, 0, 0); (0, 0, 0)].
Proof.
  split; [reflexivity|].
  apply (uniform_frame_palette_zero Scripted.grey COLORMAP_JET frame_invalid (0, 1000)).
  right. left. reflexivity.
Defined.

(** A frame with two distinct values whose spread is below [DBL_EPSILON]
    is flat as well: [normalize] treats it as uniform. *)
Lemma tiny_spread_is_flat :
  uniformb (clipped frame_tiny (0, 1000)) = false /\
  depth_8u frame_tiny (0, 1000) = NDArray 1 2 [0; 0].
Proof. split; vm_compute; reflexivity. Qed.

(** *** Frames whose clipped extrema are 0 and an integer *)

Lemma span_check_all : span_check_from (Z.to_nat 10000) 1 = true.
Proof. vm_compute. reflexivity. Qed.

Lemma span_check_from_spec n :
  forall M0, span_check_from n M0 = true ->
  forall M, M0 <= M < M0 + Z.of_nat n -> span_check M = true.
Proof.
  induction n as [|n IH]; intros M0 H M HM; [lia|].
  cbn [span_check_from] in H. apply andb_true_iff in H. destruct H as [H0 H1].
  destruct (Z.eq_dec M M0) as [-> | Hne]; [exact H0|].
  apply (IH (M0 + 1) H1). lia.
Qed.

Lemma span_check_range M : 1 <= M <= 10000 -> span_check M = true.
Proof.
  intros HM. apply (span_check_from_spec _ 1 span_check_all). lia.
Qed.






(** *** Frames reaching both ends of a clip range (0, M) *)

Lemma SFltb_asym x y : SFltb x y = true -> SFltb y x = false.
Proof.
  unfold SFltb.
  destruct x as [s1|s1| |s1 m1 e1], y as [s2|s2| |s2 m2 e2]; simpl;
    try destruct s1; try destruct s2; try discriminate; try reflexivity.
  all: pose proof (Z.compare_antisym e2 e1) as Hz;
    pose proof (Pos.compare_cont_antisym m2 m1 Eq) as Hc; simpl in Hc;
    rewrite Hz, <- Hc;
    destruct (e2 ?= e1), (Pos.compare_cont Eq m2 m1); simpl; congruence.
Qed.

(** Where a sample stands after clipping to (0, M). *)
Lemma clip1_range M x :
  is_pos_finite (F32.of_Z M) = true ->
  let v := clip1 0 M (nan_to_num1 x) in
  (v = pos_zero \/ SFltb pos_zero v = true) /\
  (v = F32.of_Z M \/ SFltb v (F32.of_Z M) = true).
Proof.
  intros HM. unfold clip1. change (F32.of_Z 0) with pos_zero.
  destruct (F32.of_Z M) as [| | |[] mM eM] eqn:EM; try discriminate.
  set (y := nan_to_num1 x).
  assert (Hy : y <> S754_nan /\ forall b, y <> S754_infinity b)
    by (subst y; destruct x; simpl; split; try intros b; discriminate).
  destruct Hy as [Hnan Hinf].
  assert (Ha : let a := npy_max y pos_zero in
               a = pos_zero \/ exists m e, a = S754_finite false m e).
  { destruct y as [s|s| |s m e]; try congruence; try (exfalso; eapply Hinf; reflexivity).
    - left. destruct s; reflexivity.
    - destruct s; [left; reflexivity | right; eexists _, _; reflexivity]. }
  cbv zeta in Ha. destruct Ha as [-> | (m & e & ->)].
  - cbn. split; [left; reflexivity | right; reflexivity].
  - unfold npy_min, F32.ltb.
    destruct (SFltb (S754_finite false m e) (S754_finite false mM eM)) eqn:E.
    + split; [right; reflexivity | right; exact E].
    + split; [right; reflexivity | left; reflexivity].
Qed.

Lemma SFltb_irrefl x : SFltb x x = false.
Proof.
  destruct (SFltb x x) eqn:E; [|reflexivity].
  rewrite (SFltb_asym x x E) in E. discriminate.
Qed.

(** One step of the scan keeps the minimum at +0 once +0 was met, and the
    maximum at [top] once [top] was met, when the samples lie between. *)
Lemma minmax_step_span top minVal maxVal val :
  (minVal = pos_zero \/ SFltb pos_zero minVal = true) ->
  (maxVal = top \/ SFltb maxVal top = true) ->
  (val = pos_zero \/ SFltb pos_zero val = true) ->
  (val = top \/ SFltb val top = true) ->
  let '(mn, mx) := minmax_step (minVal, maxVal) val in
  (mn = pos_zero \/ SFltb pos_zero mn = true) /\
  (mx = top \/ SFltb mx top = true) /\
  (minVal = pos_zero \/ val = pos_zero -> mn = pos_zero) /\
  (maxVal = top \/ val = top -> mx = top).
Proof.
  intros Hmin Hmax Hv0 Hv1. unfold minmax_step, F32.ltb.
  repeat split.
  - destruct (SFltb val minVal); assumption.
  - destruct (SFltb maxVal val); assumption.
  - intros [-> | ->].
    + destruct Hv0 as [-> | Hv0]; [reflexivity|].
      rewrite (SFltb_asym _ _ Hv0). reflexivity.
    + destruct Hmin as [-> | Hmin]; [reflexivity|]. rewrite Hmin. reflexivity.
  - intros [-> | ->].
    + destruct Hv1 as [-> | Hv1]; [rewrite SFltb_irrefl; reflexivity|].
      rewrite (SFltb_asym _ _ Hv1). reflexivity.
    + destruct Hmax as [-> | Hmax]; [rewrite SFltb_irrefl; reflexivity|].
      rewrite Hmax. reflexivity.
Qed.

Lemma minmax_fold_span top l :
  (forall v, In v l ->
     (v = pos_zero \/ SFltb pos_zero v = true) /\ (v = top \/ SFltb v top = true)) ->
  forall minVal maxVal,
  (minVal = pos_zero \/ SFltb pos_zero minVal = true) ->
  (maxVal = top \/ SFltb maxVal top = true) ->
  let '(mn, mx) := fold_left minmax_step l (minVal, maxVal) in
  (minVal = pos_zero \/ In pos_zero l -> mn = pos_zero) /\
  (maxVal = top \/ In top l -> mx = top).
Proof.
  induction l as [|val l IH]; intros Hl minVal maxVal Hmin Hmax.
  - simpl. split; intros [H | []]; exact H.
  - cbn [fold_left].
    destruct (Hl val (or_introl eq_refl)) as [Hv0 Hv1].
    pose proof (minmax_step_span top minVal maxVal val Hmin Hmax Hv0 Hv1) as Hstep.
    destruct (minmax_step (minVal, maxVal) val) as [mn1 mx1].
    destruct Hstep as (I0 & I1 & S0 & S1).
    specialize (IH (fun v Hv => Hl v (or_intror Hv)) mn1 mx1 I0 I1).
    destruct (fold_left minmax_step l (mn1, mx1)) as [mn mx].
    destruct IH as [F0 F1]. split.
    + intros [H | [H | H]]; apply F0; auto.
    + intros [H | [H | H]]; apply F1; auto.
Qed.

(** A frame that reaches both ends of the clip range (0, M) has the
    clipped extrema 0 and M. *)
Lemma full_range_spans (frame : DepthFrame) (M : Z) :
  1 <= M <= 10000 ->
  In pos_zero (clipped frame (0, M)) ->
  In (F32.of_Z M) (clipped frame (0, M)) ->
  spans (clipped frame (0, M)) M = true.
Proof.
  intros HM H0 H1. pose proof (span_check_range M HM) as Hc.
  unfold span_check in Hc.
  destruct (scale_shift_of_minmax pos_zero (F64.of_Z M) 0 255) as [scale shift].
  cbv zeta in Hc. rewrite !andb_true_iff, !sf_same_eq in Hc.
  destruct Hc as [[_ Hpos] Hcast].
  assert (Hl : forall v, In v (clipped frame (0, M)) ->
                 (v = pos_zero \/ SFltb pos_zero v = true) /\
                 (v = F32.of_Z M \/ SFltb v (F32.of_Z M) = true)).
  { intros v Hv. unfold clipped, np_clip, np_nan_to_num, nd_map in Hv.
    cbn [nd_data fst snd] in Hv. rewrite map_map in Hv.
    apply in_map_iff in Hv. destruct Hv as (x & <- & _).
    exact (clip1_range M x Hpos). }
  assert (Htop : SFltb neg_inf (F32.of_Z M) = true)
    by (destruct (F32.of_Z M) as [| | |[] ? ?]; try discriminate; reflexivity).
  pose proof (minmax_fold_span (F32.of_Z M) _ Hl pos_inf neg_inf
                (or_intror eq_refl) (or_intror Htop)) as Hf.
  unfold spans, minMaxIdx.
  destruct (clipped frame (0, M)) as [|v l] eqn:El; [destruct H0|].
  destruct (fold_left minmax_step (v :: l) (pos_inf, neg_inf)) as [mn mx].
  destruct Hf as [F0 F1].
  rewrite (F0 (or_intror H0)), (F1 (or_intror H1)), Hcast.
  cbn [F64.of_float cast pos_zero is_zero andb]. apply sf_same_eq. reflexivity.
Qed.




(** ** Configuration setters *)

Lemma resolutions_lookup (token : string) :
  default HD720 (resolutions !! token) = spec_resolution token.
Proof.
  unfold resolutions, spec_resolution.
  destruct (String.eqb_spec token "HD1080") as [-> | H1]; [reflexivity|].
  destruct (String.eqb_spec token "HD720") as [-> | H2]; [reflexivity|].
  destruct (String.eqb_spec token "VGA") as [-> | H3]; [reflexivity|].
  rewrite !lookup_insert_ne by congruence.
  rewrite lookup_singleton_ne by congruence. reflexivity.
Qed.

Lemma res_text_value i : spec_resolution (res_text i) = res_value i.
Proof. destruct i; reflexivity. Qed.

Lemma fps_text_value i : py_int (fps_text i) = Some (fps_value i).
Proof. destruct i; reflexivity. Qed.








Ltac session_cbv :=
  cbv beta iota zeta delta
    [bind gets modify ret raise zoom on_viewer1 on_viewer2
     camera init_params depth_mat running clip_range colormap
     with_camera with_init_params with_depth_mat with_running with_clip_range
     camera_resolution camera_fps
     viewer1 viewer2 res_combo1 res_combo2 fps_combo1 fps_combo2
     clip_min_box clip_max_box camera_selector image_label1 image_label2 timer
     with_viewer1 with_viewer2 with_image_label1 with_image_label2 with_timer
     configured params1 params2].

Ltac record_simpl :=
  unfold with_camera, with_init_params, with_depth_mat, with_running,
    with_clip_range, with_viewer1, with_viewer2, with_image_label1,
    with_image_label2, with_timer in *;
  cbn [camera init_params depth_mat running clip_range colormap
       camera_resolution camera_fps
       viewer1 viewer2 res_combo1 res_combo2 fps_combo1 fps_combo2
       clip_min_box clip_max_box camera_selector image_label1 image_label2 timer]
    in *.

Section Session.
Context {Camera : Type} `{SDK : CameraSDK Camera}.
Variable palette : Z -> Z -> pixel.

(** C7. [set_resolution] never raises; it stores HD1080, HD720 or VGA for
    the token of that name and HD720 for every other token, and changes
    nothing else of the session. *)
Theorem set_resolution_by_token (token : string) (v : ZEDCameraViewer Camera) :
  set_resolution token v
  = (Ok tt,
     with_init_params
       {| camera_resolution := spec_resolution token;
          camera_fps := camera_fps (init_params v) |} v).
Proof.
  unfold set_resolution, modify. rewrite resolutions_lookup. reflexivity.
Qed.


Lemma get_depth_image_closed (v : ZEDCameraViewer Camera) :
  running v = false -> get_depth_image palette v = (Ok None, v).
Proof.
  intros H. unfold get_depth_image, bind, gets. rewrite H. reflexivity.
Qed.

Lemma get_depth_image_open (v : ZEDCameraViewer Camera) :
  running v = true ->
  get_depth_image palette v =
  let '(code, cam1) := sl_grab (camera v) in
  if is_success code then
    let '(mat, cam2) := sl_retrieve_measure cam1 in
    let v' := with_depth_mat mat (with_camera cam2 (with_camera cam1 v)) in
    if (nd_h mat =? 0)%nat || (nd_w mat =? 0)%nat then (Ok None, v')
    else (Ok (Some (process_depth_image palette mat (clip_range v) (colormap v))), v')
  else (Ok None, with_camera cam1 v).
Proof.
  intros H. unfold get_depth_image, bind, gets, on_camera, modify, ret. rewrite H.
  cbn [negb]. destruct (sl_grab (camera v)) as [code cam1].
  destruct code; cbn [is_success camera with_camera]; [|reflexivity].
  destruct (sl_retrieve_measure cam1) as [mat cam2].
  cbn [depth_mat with_depth_mat nd_h nd_w clip_range colormap with_camera].
  destruct ((nd_h mat =? 0)%nat || (nd_w mat =? 0)%nat); reflexivity.
Qed.

Lemma get_depth_image_returns (v : ZEDCameraViewer Camera) :
  exists r v', get_depth_image palette v = (Ok r, v') /\ running v' = running v.
Proof.
  destruct (running v) eqn:Hrun.
  - rewrite (get_depth_image_open v Hrun).
    destruct (sl_grab (camera v)) as [code cam1].
    destruct (is_success code); [|eexists _, _; split; [reflexivity | exact Hrun]].
    destruct (sl_retrieve_measure cam1) as [mat cam2].
    destruct ((nd_h mat =? 0)%nat || (nd_w mat =? 0)%nat);
      eexists _, _; (split; [reflexivity | exact Hrun]).
  - rewrite (get_depth_image_closed v Hrun).
    eexists _, _. split; [reflexivity | exact Hrun].
Qed.

(** A successful grab of a non-degenerate frame on an open session. *)
Lemma get_depth_image_frame (v : ZEDCameraViewer Camera) cam1 mat cam2 :
  running v = true ->
  sl_grab (camera v) = (SUCCESS, cam1) ->
  sl_retrieve_measure cam1 = (mat, cam2) ->
  nd_h mat <> 0%nat -> nd_w mat <> 0%nat ->
  fst (get_depth_image palette v)
  = Ok (Some (process_depth_image palette mat (clip_range v) (colormap v))).
Proof.
  intros Hr Hg Hm Hh Hw. rewrite (get_depth_image_open v Hr), Hg.
  cbn [is_success]. rewrite Hm.
  destruct (Nat.eqb_spec (nd_h mat) 0); [contradiction|].
  destruct (Nat.eqb_spec (nd_w mat) 0); [contradiction|]. reflexivity.
Qed.

(** C4. [get_depth_image] never raises.  With [code] the answer of the
    grab and [mat] the depth measure retrieved after it, the call returns
    no frame exactly when the session is not open, or the grab failed, or
    [mat] has zero height or zero width; otherwise it returns the
    colorized [mat].  On a closed session the session, its device
    included, is left as it was. *)
Theorem get_depth_image_never_raises (v : ZEDCameraViewer Camera) :
  let '(code, cam1) := sl_grab (camera v) in
  let '(mat, _) := sl_retrieve_measure cam1 in
  exists r v',
    get_depth_image palette v = (Ok r, v') /\
    (r = None <->
     running v = false \/ is_success code = false
     \/ nd_h mat = 0%nat \/ nd_w mat = 0%nat) /\
    (r <> None ->
     r = Some (process_depth_image palette mat (clip_range v) (colormap v))) /\
    (running v = false -> v' = v).
Proof.
  destruct (sl_grab (camera v)) as [code cam1] eqn:Hg.
  destruct (sl_retrieve_measure cam1) as [mat cam2] eqn:Hr.
  destruct (running v) eqn:Hrun.
  - rewrite (get_depth_image_open v Hrun), Hg.
    destruct code; cbn [is_success].
    + rewrite Hr.
      destruct (Nat.eqb_spec (nd_h mat) 0) as [Hh | Hh]; cbn [orb].
      * eexists _, _. split; [reflexivity|]. repeat split; try tauto; try discriminate.
      * destruct (Nat.eqb_spec (nd_w mat) 0) as [Hw | Hw].
        -- eexists _, _. split; [reflexivity|]. repeat split; try tauto; try discriminate.
        -- eexists _, _. split; [reflexivity|]. repeat split; try discriminate.
           intros [H | [H | [H | H]]]; congruence.
    + eexists _, _. split; [reflexivity|]. repeat split; try tauto; try discriminate.
  - rewrite (get_depth_image_closed v Hrun).
    eexists _, _. split; [reflexivity|]. repeat split; try tauto.
Qed.

Lemma start_eq (v : ZEDCameraViewer Camera) :
  start v =
  let '(code, cam') := sl_open (init_params v) (camera v) in
  if is_success code
  then (Ok tt, with_running true (with_camera cam' v))
  else (Raise (RuntimeError "카메라 열기 실패"), with_camera cam' v).
Proof.
  unfold start, bind, gets, on_camera, modify, raise.
  destruct (sl_open (init_params v) (camera v)) as [code cam'].
  destruct code; reflexivity.
Qed.

(** C10. [start] is atomic on failure.  If [open] does not answer SUCCESS,
    [RuntimeError] is raised before the running flag is touched: the
    session keeps its flag (and every attribute but the device handle), so
    a session that was closed returns no frame on every later
    [get_depth_image].  The flag is set to [True] only after a
    successful open. *)
Theorem start_atomic_on_failure (v : ZEDCameraViewer Camera) :
  let '(code, cam') := sl_open (init_params v) (camera v) in
  (is_success code = false ->
   (exists msg, start v = (Raise (RuntimeError msg), with_camera cam' v)) /\
   running (with_camera cam' v) = running v /\
   (running v = false ->
    forall n, poll palette n (with_camera cam' v)
              = (repeat (Ok None) n, with_camera cam' v))) /\
  (is_success code = true ->
   start v = (Ok tt, with_running true (with_camera cam' v))) /\
  (forall v', start v = (Ok tt, v') -> is_success code = true /\ running v' = true).
Proof.
  pose proof (start_eq v) as Hs.
  destruct (sl_open (init_params v) (camera v)) as [code cam'] eqn:Ho.
  split; [|split].
  - intros Hc. rewrite Hs, Hc. split; [eexists; reflexivity|]. split; [reflexivity|].
    intros Hr n. induction n as [|n IH]; [reflexivity|].
    cbn [poll]. rewrite get_depth_image_closed by exact Hr. rewrite IH. reflexivity.
  - intros Hc. rewrite Hs, Hc. reflexivity.
  - intros v' Hv. rewrite Hs in Hv. destruct (is_success code); [|discriminate].
    injection Hv as <-. split; reflexivity.
Qed.

(** ** The controller *)

Lemma mode_in_1 m :
  str_in (mode_text m) ["Both Cameras"; "Camera 1 Only"] = selects1 m.
Proof. destruct m; reflexivity. Qed.

Lemma mode_in_2 m :
  str_in (mode_text m) ["Both Cameras"; "Camera 2 Only"] = selects2 m.
Proof. destruct m; reflexivity. Qed.

(** One tick, as an equation: session 1 is polled and its pane set, then
    session 2, each only when selected. *)
Lemma update_images_eq (w : DualZEDViewer Camera) :
  update_images palette w =
  let w1 :=
    if selects1 (camera_selector w)
    then let '(r, v) := get_depth_image palette (viewer1 w) in
         with_image_label1 (pane_after r (image_label1 w)) (with_viewer1 v w)
    else w in
  let w2 :=
    if selects2 (camera_selector w)
    then let '(r, v) := get_depth_image palette (viewer2 w1) in
         with_image_label2 (pane_after r (image_label2 w1)) (with_viewer2 v w1)
    else w1 in
  (Ok tt, w2).
Proof.
  destruct w as [v1 v2 r1 r2 f1 f2 cmin cmax mode l1 l2 t].
  unfold update_images, bind, gets, on_viewer1, on_viewer2, zoom, modify, ret.
  rewrite mode_in_1, mode_in_2.
  cbn [camera_selector viewer1 viewer2 image_label1 image_label2].
  destruct (get_depth_image_returns v1) as (a1 & v1' & E1 & _).
  destruct (get_depth_image_returns v2) as (a2 & v2' & E2 & _).
  destruct (selects1 mode), (selects2 mode);
    cbn [camera_selector viewer1 viewer2 image_label1 image_label2
         with_viewer1 with_viewer2 with_image_label1 with_image_label2];
    rewrite ?E1; cbv beta iota;
    try (destruct a1 as [img1|]);
    cbn [camera_selector viewer1 viewer2 image_label1 image_label2
         with_viewer1 with_viewer2 with_image_label1 with_image_label2 pane_after];
    rewrite ?E2; cbv beta iota;
    try (destruct a2 as [img2|]); reflexivity.
Qed.

(** C9. One tick ([update_images]) never raises.  For a selected session
    the pane shows the new frame when [get_depth_image] returned one and
    keeps what it showed when it returned none; the pane and the session
    of a camera that is not selected are not touched. *)
Theorem update_images_forwards_frames (w : DualZEDViewer Camera) :
  exists w',
    update_images palette w = (Ok tt, w') /\
    image_label1 w'
    = (if selects1 (camera_selector w)
       then pane_after (fst (get_depth_image palette (viewer1 w))) (image_label1 w)
       else image_label1 w) /\
    image_label2 w'
    = (if selects2 (camera_selector w)
       then pane_after (fst (get_depth_image palette (viewer2 w))) (image_label2 w)
       else image_label2 w) /\
    viewer1 w'
    = (if selects1 (camera_selector w)
       then snd (get_depth_image palette (viewer1 w)) else viewer1 w) /\
    viewer2 w'
    = (if selects2 (camera_selector w)
       then snd (get_depth_image palette (viewer2 w)) else viewer2 w) /\
    timer w' = timer w /\ camera_selector w' = camera_selector w.
Proof.
  rewrite update_images_eq. cbv zeta.
  destruct (get_depth_image palette (viewer1 w)) as [a1 v1'] eqn:E1.
  destruct (get_depth_image palette (viewer2 w)) as [a2 v2'] eqn:E2.
  destruct (selects1 (camera_selector w)), (selects2 (camera_selector w));
    record_simpl; rewrite ?E2; record_simpl;
    eexists; (split; [reflexivity|]); record_simpl; repeat split; reflexivity.
Qed.

Lemma start_configured p clip (v : ZEDCameraViewer Camera) :
  start (configured p clip v) =
  let '(code, cam') := sl_open p (camera v) in
  if is_success code
  then (Ok tt, with_running true (with_camera cam' (configured p clip v)))
  else (Raise (RuntimeError "카메라 열기 실패"), with_camera cam' (configured p clip v)).
Proof. rewrite start_eq. reflexivity. Qed.

(** [start_viewing] is the two starts (or pane clearings) on the
    configured sessions, then the timer. *)
Lemma start_viewing_eq (w : DualZEDViewer Camera) :
  start_viewing w =
  let clip := (clip_min_box w, clip_max_box w) in
  let v1 := configured (params1 w) clip (viewer1 w) in
  let v2 := configured (params2 w) clip (viewer2 w) in
  let wc := with_viewer2 v2 (with_viewer1 v1 w) in
  let '(r1, w1) :=
    if selects1 (camera_selector w)
    then let '(r, v) := start v1 in (r, with_viewer1 v wc)
    else (Ok tt, with_image_label1 None wc) in
  match r1 with
  | Raise e => (Raise e, w1)
  | Ok _ =>
    let '(r2, w2) :=
      if selects2 (camera_selector w)
      then let '(r, v) := start v2 in (r, with_viewer2 v w1)
      else (Ok tt, with_image_label2 None w1) in
    match r2 with
    | Raise e => (Raise e, w2)
    | Ok _ => (Ok tt, with_timer (Some 30) w2)
    end
  end.
Proof.
  destruct w as [v1 v2 r1 r2 f1 f2 cmin cmax mode l1 l2 t].
  destruct v1 as [c1 p1 d1 run1 clip1 cm1], v2 as [c2 p2 d2 run2 clip2 cm2].
  unfold start_viewing, set_fps, set_resolution, set_clip_range.
  session_cbv.
  rewrite !fps_text_value, !resolutions_lookup, !res_text_value, mode_in_1, mode_in_2.
  session_cbv.
  destruct (selects1 mode), (selects2 mode); session_cbv.
  all: repeat match goal with
         | |- context [start ?v] => destruct (start v) as [[[]|?] ?]; session_cbv
         end; reflexivity.
Qed.

(** C8. [start_viewing] in mode "Both Cameras" with two devices that open
    leaves both sessions open and the timer running.  In mode "Camera 1
    Only" it starts session 1 alone: session 2 keeps its running flag
    (closed stays closed), its device is not touched, and pane 2 is
    cleared; "Camera 2 Only" is the mirror image. *)
Theorem start_viewing_by_mode (w : DualZEDViewer Camera) :
  (camera_selector w = Item_Both ->
   opens (params1 w) (camera (viewer1 w)) = true ->
   opens (params2 w) (camera (viewer2 w)) = true ->
   exists w', start_viewing w = (Ok tt, w') /\
     running (viewer1 w') = true /\ running (viewer2 w') = true /\
     timer w' = Some 30) /\
  (camera_selector w = Item_Camera1 ->
   opens (params1 w) (camera (viewer1 w)) = true ->
   exists w', start_viewing w = (Ok tt, w') /\
     running (viewer1 w') = true /\
     running (viewer2 w') = running (viewer2 w) /\
     camera (viewer2 w') = camera (viewer2 w) /\
     image_label2 w' = None /\ timer w' = Some 30) /\
  (camera_selector w = Item_Camera2 ->
   opens (params2 w) (camera (viewer2 w)) = true ->
   exists w', start_viewing w = (Ok tt, w') /\
     running (viewer2 w') = true /\
     running (viewer1 w') = running (viewer1 w) /\
     camera (viewer1 w') = camera (viewer1 w) /\
     image_label1 w' = None /\ timer w' = Some 30).
Proof.
  unfold opens. repeat split.
  - intros Hm H1 H2. rewrite start_viewing_eq, Hm. cbn [selects1 selects2].
    cbv zeta. rewrite !start_configured.
    destruct (sl_open (params1 w) (camera (viewer1 w))) as [c1 cam1].
    destruct (sl_open (params2 w) (camera (viewer2 w))) as [c2 cam2].
    cbn [fst] in H1, H2. rewrite H1, H2.
    eexists. split; [reflexivity|]. repeat split; reflexivity.
  - intros Hm H1. rewrite start_viewing_eq, Hm. cbn [selects1 selects2].
    cbv zeta. rewrite !start_configured.
    destruct (sl_open (params1 w) (camera (viewer1 w))) as [c1 cam1].
    cbn [fst] in H1. rewrite H1.
    eexists. split; [reflexivity|]. repeat split; reflexivity.
  - intros Hm H2. rewrite start_viewing_eq, Hm. cbn [selects1 selects2].
    cbv zeta. rewrite !start_configured.
    destruct (sl_open (params2 w) (camera (viewer2 w))) as [c2 cam2].
    cbn [fst] in H2. rewrite H2.
    eexists. split; [reflexivity|]. repeat split; reflexivity.
Qed.

(** The selected session of a single-camera mode after a successful
    [start_viewing], at the next timeout with a good grab. *)
Ltac frame_after_start Hm cam1 mat cam2 Hg Hr Hh Hw :=
  unfold on_timeout, bind, gets; record_simpl; cbv beta iota;
  rewrite update_images_eq; record_simpl; rewrite Hm;
  cbn [selects1 selects2]; cbv zeta;
  match goal with
  | |- context [get_depth_image palette ?v] =>
    pose proof (get_depth_image_frame v cam1 mat cam2 eq_refl Hg Hr Hh Hw) as Hf;
    destruct (get_depth_image palette v) as [r v'];
    cbn [fst] in Hf; subst r
  end;
  eexists; split; [reflexivity|];
  unfold configured; record_simpl; cbn [pane_after]; split; reflexivity.

(** C5 (as amended). A session that is not selected is never opened, so
    the state of its device cannot disturb the other session: in a
    single-camera mode the selected camera starts, the other pane is
    cleared, and the next timeout with a good grab puts the frame on the
    selected pane, whatever the other device would answer.  In mode "Both
    Cameras" an OpenFailure is not contained: the [RuntimeError] of
    camera 1 leaves [start_viewing] before session 2 is started (its flag
    and its device are untouched) and before the timer is started; the
    [RuntimeError] of camera 2 leaves it with session 1 open and the
    timer not started. *)
Theorem open_failure_stops_start_viewing (w : DualZEDViewer Camera) :
  (camera_selector w = Item_Camera2 ->
   opens (params2 w) (camera (viewer2 w)) = true ->
   exists w', start_viewing w = (Ok tt, w') /\
     running (viewer2 w') = true /\
     camera (viewer1 w') = camera (viewer1 w) /\
     running (viewer1 w') = running (viewer1 w) /\
     image_label1 w' = None /\
     forall cam1 mat cam2,
       sl_grab (camera (viewer2 w')) = (SUCCESS, cam1) ->
       sl_retrieve_measure cam1 = (mat, cam2) ->
       nd_h mat <> 0%nat -> nd_w mat <> 0%nat ->
       exists w'', on_timeout palette w' = (Ok tt, w'') /\
         image_label2 w''
         = Some (cv_to_pixmap
                   (process_depth_image palette mat
                      (clip_min_box w, clip_max_box w) (colormap (viewer2 w)))) /\
         image_label1 w'' = None) /\
  (camera_selector w = Item_Camera1 ->
   opens (params1 w) (camera (viewer1 w)) = true ->
   exists w', start_viewing w = (Ok tt, w') /\
     running (viewer1 w') = true /\
     camera (viewer2 w') = camera (viewer2 w) /\
     running (viewer2 w') = running (viewer2 w) /\
     image_label2 w' = None /\
     forall cam1 mat cam2,
       sl_grab (camera (viewer1 w')) = (SUCCESS, cam1) ->
       sl_retrieve_measure cam1 = (mat, cam2) ->
       nd_h mat <> 0%nat -> nd_w mat <> 0%nat ->
       exists w'', on_timeout palette w' = (Ok tt, w'') /\
         image_label1 w''
         = Some (cv_to_pixmap
                   (process_depth_image palette mat
                      (clip_min_box w, clip_max_box w) (colormap (viewer1 w)))) /\
         image_label2 w'' = None) /\
  (camera_selector w = Item_Both ->
   opens (params1 w) (camera (viewer1 w)) = false ->
   exists msg w', start_viewing w = (Raise (RuntimeError msg), w') /\
     running (viewer1 w') = running (viewer1 w) /\
     running (viewer2 w') = running (viewer2 w) /\
     camera (viewer2 w') = camera (viewer2 w) /\
     timer w' = timer w) /\
  (camera_selector w = Item_Both ->
   opens (params1 w) (camera (viewer1 w)) = true ->
   opens (params2 w) (camera (viewer2 w)) = false ->
   exists msg w', start_viewing w = (Raise (RuntimeError msg), w') /\
     running (viewer1 w') = true /\
     running (viewer2 w') = running (viewer2 w) /\
     timer w' = timer w).
Proof.
  unfold opens. split; [|split; [|split]].
  - intros Hm H2. rewrite start_viewing_eq, Hm. cbn [selects1 selects2].
    cbv zeta. rewrite !start_configured.
    destruct (sl_open (params2 w) (camera (viewer2 w))) as [c2 cam2'].
    cbn [fst] in H2. rewrite H2.
    eexists. split; [reflexivity|]. do 4 (split; [reflexivity|]).
    intros cam1 mat cam2 Hg Hr Hh Hw.
    frame_after_start Hm cam1 mat cam2 Hg Hr Hh Hw.
  - intros Hm H1. rewrite start_viewing_eq, Hm. cbn [selects1 selects2].
    cbv zeta. rewrite !start_configured.
    destruct (sl_open (params1 w) (camera (viewer1 w))) as [c1 cam1'].
    cbn [fst] in H1. rewrite H1.
    eexists. split; [reflexivity|]. do 4 (split; [reflexivity|]).
    intros cam1 mat cam2 Hg Hr Hh Hw.
    frame_after_start Hm cam1 mat cam2 Hg Hr Hh Hw.
  - intros Hm H1. rewrite start_viewing_eq, Hm. cbn [selects1 selects2].
    cbv zeta. rewrite !start_configured.
    destruct (sl_open (params1 w) (camera (viewer1 w))) as [c1 cam1'].
    cbn [fst] in H1. rewrite H1.
    eexists _, _. split; [reflexivity|]. repeat split; reflexivity.
  - intros Hm H1 H2. rewrite start_viewing_eq, Hm. cbn [selects1 selects2].
    cbv zeta. rewrite !start_configured.
    destruct (sl_open (params1 w) (camera (viewer1 w))) as [c1 cam1'].
    destruct (sl_open (params2 w) (camera (viewer2 w))) as [c2 cam2'].
    cbn [fst] in H1, H2. rewrite H1, H2.
    eexists _, _. split; [reflexivity|]. repeat split; reflexivity.
Qed.

End Session.

(** ** The statements on concrete inputs *)



Lemma start_viewing_by_mode_witness :
  camera_selector both_healthy = Item_Both /\
  opens (params1 both_healthy) (camera (viewer1 both_healthy)) = true /\
  opens (params2 both_healthy) (camera (viewer2 both_healthy)) = true /\
  exists w', start_viewing both_healthy = (Ok tt, w') /\
    running (viewer1 w') = true /\ running (viewer2 w') = true /\
    timer w' = Some 30.
Proof.
  split; [reflexivity|]. split; [reflexivity|]. split; [reflexivity|].
  exact (proj1 (start_viewing_by_mode both_healthy) eq_refl eq_refl eq_refl).
Defined.

(** In mode "Both Cameras" with camera 1 unavailable and camera 2 healthy,
    [start_viewing] ends in the [RuntimeError] of camera 1: session 2 is
    not started, its device receives no call, the timer is not started,
    and a timeout, were one delivered, would leave pane 2 empty. *)
Lemma open_failure_counterexample :
  camera_selector both_cam1_down = Item_Both /\
  opens (params1 both_cam1_down) (camera (viewer1 both_cam1_down)) = false /\
  opens (params2 both_cam1_down) (camera (viewer2 both_cam1_down)) = true /\
  fst (start_viewing both_cam1_down) = Raise (RuntimeError "카메라 열기 실패") /\
  running (viewer2 after_failed_start) = false /\
  Scripted.calls (camera (viewer2 after_failed_start)) = [] /\
  timer after_failed_start = None /\
  on_timeout Scripted.grey after_failed_start = (Ok tt, after_failed_start) /\
  image_label2 after_failed_start = None.
Proof. vm_compute. repeat split; reflexivity. Qed.

Lemma open_failure_stops_start_viewing_witness :
  camera_selector cam2_only_cam1_down = Item_Camera2 /\
  opens (params1 cam2_only_cam1_down) (camera (viewer1 cam2_only_cam1_down)) = false /\
  opens (params2 cam2_only_cam1_down) (camera (viewer2 cam2_only_cam1_down)) = true /\
  exists w', start_viewing cam2_only_cam1_down = (Ok tt, w') /\
    running (viewer2 w') = true /\
    Scripted.calls (camera (viewer1 w')) = [] /\
    image_label1 w' = None.
Proof.
  assert (Hm : camera_selector cam2_only_cam1_down = Item_Camera2) by reflexivity.
  assert (H2 : opens (params2 cam2_only_cam1_down)
                 (camera (viewer2 cam2_only_cam1_down)) = true) by reflexivity.
  split; [exact Hm|]. split; [reflexivity|]. split; [exact H2|].
  destruct (proj1 (open_failure_stops_start_viewing Scripted.grey cam2_only_cam1_down)
              Hm H2) as (w' & Hs & Hr & Hc & _ & Hl & _).
  exists w'. split; [exact Hs|]. split; [exact Hr|]. split; [|exact Hl].
  rewrite Hc. reflexivity.
Defined.

(** ** More on the colorizer *)

Lemma SFltb_trans x y z : SFltb x y = true -> SFltb y z = true -> SFltb x z = true.
Proof.
  unfold SFltb.
  destruct x as [s1|s1| |s1 m1 e1], y as [s2|s2| |s2 m2 e2], z as [s3|s3| |s3 m3 e3];
    simpl; try destruct s1; try destruct s2; try destruct s3;
    try discriminate; try reflexivity.
  all: rewrite ?Pos.compare_cont_spec; simpl;
    destruct (Z.compare_spec e1 e2), (Z.compare_spec e2 e3), (Z.compare_spec e1 e3);
    try discriminate; try reflexivity; try lia; subst;
    destruct (Pos.compare_spec m1 m2), (Pos.compare_spec m2 m3), (Pos.compare_spec m1 m3);
    simpl; try discriminate; try reflexivity; try lia.
Qed.

Lemma increasing_all : increasing_from (Z.to_nat 10000) 0 = true.
Proof. vm_compute. reflexivity. Qed.

Lemma increasing_from_spec n :
  forall M0, increasing_from n M0 = true ->
  forall M, M0 <= M < M0 + Z.of_nat n -> SFltb (F32.of_Z M) (F32.of_Z (M + 1)) = true.
Proof.
  induction n as [|n IH]; intros M0 H M HM; [lia|].
  cbn [increasing_from] in H. apply andb_true_iff in H. destruct H as [H0 H1].
  destruct (Z.eq_dec M M0) as [-> | Hne]; [exact H0|].
  apply (IH (M0 + 1) H1). lia.
Qed.

Lemma of_Z_increasing a b :
  0 <= a -> a < b -> b <= 10000 -> SFltb (F32.of_Z a) (F32.of_Z b) = true.
Proof.
  intros Ha Hab Hb.
  assert (Hstep : forall M, 0 <= M < 10000 ->
                    SFltb (F32.of_Z M) (F32.of_Z (M + 1)) = true).
  { intros M HM. apply (increasing_from_spec _ 0 increasing_all). lia. }
  assert (Hn : forall n, (0 < n)%nat -> a + Z.of_nat n <= 10000 ->
                 SFltb (F32.of_Z a) (F32.of_Z (a + Z.of_nat n)) = true).
  { induction n as [|n IH]; [lia|]. intros _ Hle.
    destruct n as [|n].
    - replace (a + Z.of_nat 1) with (a + 1) by lia. apply Hstep. lia.
    - apply (SFltb_trans _ (F32.of_Z (a + Z.of_nat (S n)))).
      + apply IH; lia.
      + replace (a + Z.of_nat (S (S n))) with (a + Z.of_nat (S n) + 1) by lia.
        apply Hstep. lia. }
  replace b with (a + Z.of_nat (Z.to_nat (b - a))) by lia.
  apply Hn; lia.
Qed.

Lemma of_Z_regular z : spin_value z -> is_nan_or_inf (F32.of_Z z) = false.
Proof.
  intros Hz. destruct (Z.eq_dec z 0) as [-> | Hne]; [reflexivity|].
  assert (HM : 1 <= z <= 10000) by (unfold spin_value in Hz; lia).
  pose proof (span_check_range z HM) as Hc. unfold span_check in Hc.
  destruct (scale_shift_of_minmax pos_zero (F64.of_Z z) 0 255) as [scale shift].
  cbv zeta in Hc. rewrite !andb_true_iff in Hc. destruct Hc as [[_ Hpos] _].
  destruct (F32.of_Z z) as [| | |[] ? ?]; try discriminate; reflexivity.
Qed.

Lemma regular_not_nan x : is_nan_or_inf x = false -> x <> S754_nan.
Proof. intros H ->. discriminate. Qed.

Lemma nan_to_num1_regular x : is_nan_or_inf (nan_to_num1 x) = false.
Proof. destruct x; reflexivity. Qed.

Lemma nan_to_num1_id x : is_nan_or_inf x = false -> nan_to_num1 x = x.
Proof. destruct x; try discriminate; reflexivity. Qed.

Lemma npy_max_eq a b :
  a <> S754_nan -> npy_max a b = if SFltb b a then a else b.
Proof. destruct a; try congruence; reflexivity. Qed.

Lemma npy_min_eq a b :
  a <> S754_nan -> npy_min a b = if SFltb a b then a else b.
Proof. destruct a; try congruence; reflexivity. Qed.

(** Clipping between two regular bounds, as a case split; the result is
    regular. *)
Lemma clip_regular L H y :
  is_nan_or_inf L = false -> is_nan_or_inf H = false -> is_nan_or_inf y = false ->
  npy_min (npy_max y L) H
  = (let a := if SFltb L y then y else L in if SFltb a H then a else H) /\
  is_nan_or_inf (npy_min (npy_max y L) H) = false.
Proof.
  intros HL HH Hy. rewrite (npy_max_eq y L (regular_not_nan y Hy)).
  assert (Ha : is_nan_or_inf (if SFltb L y then y else L) = false)
    by (destruct (SFltb L y); assumption).
  rewrite (npy_min_eq _ H (regular_not_nan _ Ha)). cbv zeta.
  split; [reflexivity|].
  destruct (SFltb (if SFltb L y then y else L) H); assumption.
Qed.

Lemma clip_idempotent L H y :
  is_nan_or_inf L = false -> is_nan_or_inf H = false -> is_nan_or_inf y = false ->
  npy_min (npy_max (npy_min (npy_max y L) H) L) H = npy_min (npy_max y L) H.
Proof.
  intros HL HH Hy.
  destruct (clip_regular L H y HL HH Hy) as [E R].
  destruct (clip_regular L H _ HL HH R) as [E2 _].
  rewrite E2, E. cbv zeta.
  destruct (SFltb L y) eqn:ELy.
  - destruct (SFltb y H) eqn:EyH.
    + rewrite ELy, EyH. reflexivity.
    + destruct (SFltb L H) eqn:ELH; rewrite ?SFltb_irrefl, ?ELH; reflexivity.
  - destruct (SFltb L H) eqn:ELH.
    + rewrite SFltb_irrefl, ELH. reflexivity.
    + rewrite ELH, ELH. reflexivity.
Qed.

(** With the upper bound at or below the lower one, everything is
    clipped to the upper bound. *)
Lemma clip_collapses L H y :
  is_nan_or_inf L = false -> is_nan_or_inf H = false -> is_nan_or_inf y = false ->
  L = H \/ SFltb H L = true ->
  npy_min (npy_max y L) H = H.
Proof.
  intros HL HH Hy Hord.
  destruct (clip_regular L H y HL HH Hy) as [E _]. rewrite E. cbv zeta.
  destruct (SFltb L y) eqn:ELy.
  - destruct (SFltb y H) eqn:EyH; [exfalso|reflexivity].
    destruct Hord as [-> | HHL].
    + rewrite (SFltb_asym _ _ ELy) in EyH. discriminate.
    + pose proof (SFltb_trans _ _ _ EyH HHL) as HyL.
      rewrite (SFltb_asym _ _ ELy) in HyL. discriminate.
  - destruct Hord as [-> | HHL]; [rewrite SFltb_irrefl; reflexivity|].
    rewrite (SFltb_asym _ _ HHL). reflexivity.
Qed.

(** The image has the shape of the frame. *)
Lemma process_depth_image_dims palette frame clip_range colormap :
  let out := process_depth_image palette frame clip_range colormap in
  nd_h out = nd_h frame /\ nd_w out = nd_w frame /\
  length (nd_data out) = length (nd_data frame).
Proof.
  unfold process_depth_image, cv2_applyColorMap, astype_uint8, cv2_normalize.
  destruct (normalize_scale_shift _ 0 255) as [scale shift].
  unfold np_clip, np_nan_to_num, nd_map. cbn [nd_h nd_w nd_data].
  rewrite !length_map. repeat split.
Qed.

Lemma clipped_eq frame lo hi :
  clipped frame (lo, hi) = map (fun x => clip1 lo hi (nan_to_num1 x)) (nd_data frame).
Proof.
  unfold clipped, np_clip, np_nan_to_num, nd_map. cbn [nd_data fst snd].
  apply map_map.
Qed.

(** The image depends on the frame through the cleaned and clipped grid
    only. *)
Lemma process_depth_image_ext palette f g clip_range colormap :
  np_clip (np_nan_to_num f) (fst clip_range) (snd clip_range)
  = np_clip (np_nan_to_num g) (fst clip_range) (snd clip_range) ->
  process_depth_image palette f clip_range colormap
  = process_depth_image palette g clip_range colormap.
Proof. intros H. unfold process_depth_image. rewrite H. reflexivity. Qed.


(** X2. The cleaning steps of [process_depth_image] are idempotent for
    clip bounds the spin boxes can hold: a frame whose NaN/Inf readings
    were already replaced by 0.0, and a frame that was already cleaned
    and clipped to the same range, are rendered exactly as the raw
    frame. *)
Theorem preprocessing_is_idempotent (palette : Z -> Z -> pixel) (frame : DepthFrame)
    (lo hi colormap : Z) :
  spin_value lo -> spin_value hi ->
  process_depth_image palette (np_nan_to_num frame) (lo, hi) colormap
  = process_depth_image palette frame (lo, hi) colormap /\
  process_depth_image palette (np_clip (np_nan_to_num frame) lo hi) (lo, hi) colormap
  = process_depth_image palette frame (lo, hi) colormap.
Proof.
  intros Hlo Hhi.
  pose proof (of_Z_regular lo Hlo) as RL. pose proof (of_Z_regular hi Hhi) as RH.
  split; apply process_depth_image_ext; cbn [fst snd];
    unfold np_clip, np_nan_to_num, nd_map; cbn [nd_h nd_w nd_data]; f_equal;
    rewrite !map_map; apply map_ext; intros x.
  - rewrite (nan_to_num1_id (nan_to_num1 x)) by apply nan_to_num1_regular.
    reflexivity.
  - pose proof (nan_to_num1_regular x) as Rx.
    destruct (clip_regular _ _ _ RL RH Rx) as [_ Rc].
    unfold clip1 at 2. rewrite (nan_to_num1_id _ Rc).
    unfold clip1. apply clip_idempotent; assumption.
Qed.

(** X3. With spin-box bounds lo <= hi, every sample that reaches
    [cv2.normalize] is a finite number, not below lo and not above hi:
    NaN and the infinities do not survive the first two steps of
    [process_depth_image]. *)
Theorem clipped_within_bounds (frame : DepthFrame) (lo hi : Z) (x : spec_float) :
  spin_value lo -> spin_value hi -> lo <= hi ->
  In x (clipped frame (lo, hi)) ->
  is_nan_or_inf x = false /\
  SFltb x (F32.of_Z lo) = false /\ SFltb (F32.of_Z hi) x = false.
Proof.
  intros Hlo Hhi Hle Hx. rewrite clipped_eq in Hx.
  apply in_map_iff in Hx. destruct Hx as (y & <- & _).
  pose proof (of_Z_regular lo Hlo) as RL. pose proof (of_Z_regular hi Hhi) as RH.
  pose proof (nan_to_num1_regular y) as Ry.
  destruct (clip_regular _ _ _ RL RH Ry) as [E R].
  unfold clip1. split; [exact R|]. rewrite E. cbv zeta.
  assert (Hord : F32.of_Z lo = F32.of_Z hi \/ SFltb (F32.of_Z lo) (F32.of_Z hi) = true).
  { destruct (Z.eq_dec lo hi) as [-> | Hne]; [left; reflexivity|].
    right. apply of_Z_increasing; unfold spin_value in *; lia. }
  destruct (SFltb (F32.of_Z lo) (nan_to_num1 y)) eqn:ELy.
  - destruct (SFltb (nan_to_num1 y) (F32.of_Z hi)) eqn:EyH.
    + split; [apply SFltb_asym, ELy | apply SFltb_asym, EyH].
    + split; [|apply SFltb_irrefl].
      destruct Hord as [<- | HLH]; [apply SFltb_irrefl | apply SFltb_asym, HLH].
  - destruct (SFltb (F32.of_Z lo) (F32.of_Z hi)) eqn:ELH.
    + split; [apply SFltb_irrefl | apply SFltb_asym, ELH].
    + split; [|apply SFltb_irrefl].
      destruct Hord as [<- | HLH]; [apply SFltb_irrefl | congruence].
Qed.

(** X4. With the minimum of the clip range at or above its maximum
    (the spin boxes do not prevent it), [np.clip] sends every sample to
    the upper bound, so [process_depth_image] renders every frame as the
    palette's colour for 0 at every pixel; nothing is raised. *)
Theorem inverted_clip_range_is_blank (palette : Z -> Z -> pixel) (frame : DepthFrame)
    (lo hi colormap : Z) :
  spin_value lo -> spin_value hi -> hi <= lo ->
  process_depth_image palette frame (lo, hi) colormap
  = nd_map (fun _ => palette colormap 0) frame.
Proof.
  intros Hlo Hhi Hle. apply flat_frame_zero.
  apply (constant_flat _ (F32.of_Z hi)). intros y Hy.
  rewrite clipped_eq in Hy. apply in_map_iff in Hy. destruct Hy as (x & <- & _).
  unfold clip1. apply clip_collapses.
  - apply of_Z_regular, Hlo.
  - apply of_Z_regular, Hhi.
  - apply nan_to_num1_regular.
  - destruct (Z.eq_dec hi lo) as [-> | Hne]; [left; reflexivity|].
    right. apply of_Z_increasing; unfold spin_value in *; lia.
Qed.

Lemma clip_inside lo hi frame :
  strictly_inside lo hi frame = true ->
  np_clip (np_nan_to_num frame) lo hi = np_nan_to_num frame.
Proof.
  intros H. unfold strictly_inside in H. rewrite forallb_forall in H.
  unfold np_clip, np_nan_to_num, nd_map. cbn [nd_h nd_w nd_data]. f_equal.
  rewrite map_map. apply map_ext_in. intros x Hx.
  specialize (H x Hx). apply andb_true_iff in H. destruct H as [Hlo Hhi].
  pose proof (regular_not_nan _ (nan_to_num1_regular x)) as Hn.
  unfold clip1. rewrite (npy_max_eq _ _ Hn), Hlo, (npy_min_eq _ _ Hn), Hhi.
  reflexivity.
Qed.

(** X5. The clip range matters only through the samples it cuts: two
    clip ranges that both hold every cleaned sample of the frame strictly
    inside give the same image, since the normalization runs over the
    frame's own extrema. *)
Theorem clip_range_irrelevant_inside (palette : Z -> Z -> pixel) (frame : DepthFrame)
    (lo hi lo' hi' colormap : Z) :
  strictly_inside lo hi frame = true ->
  strictly_inside lo' hi' frame = true ->
  process_depth_image palette frame (lo, hi) colormap
  = process_depth_image palette frame (lo', hi') colormap.
Proof.
  intros H H'. unfold process_depth_image. cbn [fst snd].
  rewrite (clip_inside lo hi frame H), (clip_inside lo' hi' frame H').
  reflexivity.
Qed.


(** ** More on the session *)

Section SessionInvariants.
Context {Camera : Type} `{SDK : CameraSDK Camera}.
Variable palette : Z -> Z -> pixel.

Lemma get_depth_image_keeps (v : ZEDCameraViewer Camera) :
  exists r v', get_depth_image palette v = (Ok r, v') /\
    running v' = running v /\ init_params v' = init_params v /\
    clip_range v' = clip_range v /\ colormap v' = colormap v.
Proof.
  destruct (running v) eqn:Hrun.
  - rewrite (get_depth_image_open palette v Hrun).
    destruct (sl_grab (camera v)) as [code cam1].
    destruct (is_success code);
      [|eexists _, _; split; [reflexivity | repeat split; exact Hrun]].
    destruct (sl_retrieve_measure cam1) as [mat cam2].
    destruct ((nd_h mat =? 0)%nat || (nd_w mat =? 0)%nat);
      eexists _, _; (split; [reflexivity | repeat split; exact Hrun]).
  - rewrite (get_depth_image_closed palette v Hrun).
    eexists _, _. split; [reflexivity | repeat split; exact Hrun].
Qed.

Lemma poll_closed (v : ZEDCameraViewer Camera) n :
  running v = false -> poll palette n v = (repeat (Ok None) n, v).
Proof.
  intros Hr. induction n as [|n IH]; [reflexivity|].
  cbn [poll]. rewrite get_depth_image_closed by exact Hr. rewrite IH. reflexivity.
Qed.

(** A successful grab of a non-degenerate frame, with the session it
    leaves. *)
Lemma get_depth_image_good (v : ZEDCameraViewer Camera) cam1 mat cam2 :
  running v = true ->
  sl_grab (camera v) = (SUCCESS, cam1) ->
  sl_retrieve_measure cam1 = (mat, cam2) ->
  nd_h mat <> 0%nat -> nd_w mat <> 0%nat ->
  get_depth_image palette v
  = (Ok (Some (process_depth_image palette mat (clip_range v) (colormap v))),
     with_depth_mat mat (with_camera cam2 (with_camera cam1 v))).
Proof.
  intros Hr Hg Hm Hh Hw. rewrite (get_depth_image_open palette v Hr), Hg.
  cbn [is_success]. rewrite Hm.
  destruct (Nat.eqb_spec (nd_h mat) 0); [contradiction|].
  destruct (Nat.eqb_spec (nd_w mat) 0); [contradiction|]. reflexivity.
Qed.

(** X7. [stop] never raises and has no guard: it sets the running flag
    to [False] and calls [close] on the device whether or not the
    session was open, and keeps the configuration.  Afterwards every
    [get_depth_image] returns no frame and touches nothing, and [start]
    opens the closed device again with the parameters the session had. *)
Theorem stop_closes_and_silences (v : ZEDCameraViewer Camera) :
  exists v',
    stop v = (Ok tt, v') /\
    camera v' = sl_close (camera v) /\ running v' = false /\
    init_params v' = init_params v /\ clip_range v' = clip_range v /\
    colormap v' = colormap v /\ depth_mat v' = depth_mat v /\
    (forall n, poll palette n v' = (repeat (Ok None) n, v')) /\
    start v' = (let '(code, cam') := sl_open (init_params v) (sl_close (camera v)) in
                if is_success code
                then (Ok tt, with_running true (with_camera cam' v'))
                else (Raise (RuntimeError "카메라 열기 실패"), with_camera cam' v')).
Proof.
  eexists. split; [reflexivity|]. do 6 (split; [reflexivity|]).
  split.
  - intros n. apply poll_closed. reflexivity.
  - rewrite start_eq. reflexivity.
Qed.

(** X8. Any number of successive calls of [get_depth_image] return
    normally, one result per call, and leave the running flag, the
    initialisation parameters, the clip range and the colormap of the
    session as they were: a failed grab or a degenerate frame does not
    stop the session. *)
Theorem poll_keeps_configuration (n : nat) (v : ZEDCameraViewer Camera) :
  let '(rs, v') := poll palette n v in
  length rs = n /\
  (forall r, In r rs -> exists img, r = Ok img) /\
  running v' = running v /\ init_params v' = init_params v /\
  clip_range v' = clip_range v /\ colormap v' = colormap v.
Proof.
  revert v. induction n as [|n IH]; intros v.
  - cbn [poll]. repeat split. intros r [].
  - cbn [poll].
    destruct (get_depth_image_keeps v) as (r & v1 & E & Hr & Hp & Hc & Hm).
    rewrite E. specialize (IH v1).
    destruct (poll palette n v1) as [rs v2].
    destruct IH as (Hl & Hok & Hr2 & Hp2 & Hc2 & Hm2).
    split; [cbn [length]; congruence|].
    split; [|repeat split; congruence].
    intros r' [<- | Hin]; [eexists; reflexivity | apply Hok, Hin].
Qed.

(** X9. An image returned by [get_depth_image] is never degenerate: the
    session was open, the image has the nonzero height and width of the
    depth matrix just retrieved, one pixel per sample, and it is that
    matrix colorized with the session's clip range and colormap. *)
Theorem get_depth_image_image_shape (v v' : ZEDCameraViewer Camera) (img : ColorImage) :
  get_depth_image palette v = (Ok (Some img), v') ->
  running v = true /\
  nd_h img <> 0%nat /\ nd_w img <> 0%nat /\
  nd_h img = nd_h (depth_mat v') /\ nd_w img = nd_w (depth_mat v') /\
  length (nd_data img) = length (nd_data (depth_mat v')) /\
  img = process_depth_image palette (depth_mat v') (clip_range v') (colormap v').
Proof.
  intros H. destruct (running v) eqn:Hrun;
    [|rewrite (get_depth_image_closed palette v Hrun) in H; discriminate].
  rewrite (get_depth_image_open palette v Hrun) in H.
  destruct (sl_grab (camera v)) as [code cam1].
  destruct (is_success code); [|discriminate].
  destruct (sl_retrieve_measure cam1) as [mat cam2].
  destruct (Nat.eqb_spec (nd_h mat) 0) as [Hh | Hh]; [discriminate|].
  destruct (Nat.eqb_spec (nd_w mat) 0) as [Hw | Hw]; [discriminate|].
  cbn [orb] in H. injection H as <- <-.
  cbn [depth_mat with_depth_mat clip_range colormap with_camera].
  destruct (process_depth_image_dims palette mat (clip_range v) (colormap v))
    as (Eh & Ew & El).
  rewrite Eh, Ew, El. repeat split; assumption.
Qed.

(** X10. [set_clip_range] on an open session takes effect at the next
    frame without a restart: [get_depth_image] right after it colorizes
    the retrieved measure with the new range. *)
Theorem set_clip_range_takes_effect (a b : Z) (v : ZEDCameraViewer Camera)
    cam1 mat cam2 :
  running v = true ->
  sl_grab (camera v) = (SUCCESS, cam1) ->
  sl_retrieve_measure cam1 = (mat, cam2) ->
  nd_h mat <> 0%nat -> nd_w mat <> 0%nat ->
  fst ((set_clip_range a b ;;; get_depth_image palette) v)
  = Ok (Some (process_depth_image palette mat (a, b) (colormap v))).
Proof.
  intros Hr Hg Hm Hh Hw. unfold bind, set_clip_range, modify.
  exact (get_depth_image_frame palette (with_clip_range (a, b) v) cam1 mat cam2
           Hr Hg Hm Hh Hw).
Qed.

End SessionInvariants.

(** ** More on the controller *)

Section ControllerInvariants.
Context {Camera : Type} `{SDK : CameraSDK Camera}.
Variable palette : Z -> Z -> pixel.

Ltac controller_cbv :=
  cbv beta iota zeta delta
    [fst snd is_success selects1 selects2 negb orb andb
     selected_open opens edit_widgets
     camera init_params depth_mat running clip_range colormap
     with_camera with_init_params with_depth_mat with_running with_clip_range
     camera_resolution camera_fps
     viewer1 viewer2 res_combo1 res_combo2 fps_combo1 fps_combo2
     clip_min_box clip_max_box camera_selector image_label1 image_label2 timer
     with_viewer1 with_viewer2 with_image_label1 with_image_label2 with_timer
     configured params1 params2].

(** Every way through [start_viewing]: the mode and the answers of the
    two devices. *)
Ltac start_viewing_cases w :=
  destruct w as [v1 v2 r1 r2 f1 f2 cmin cmax mode l1 l2 t];
  destruct v1 as [c1 p1 d1 run1 clip1 cm1], v2 as [c2 p2 d2 run2 clip2 cm2];
  rewrite start_viewing_eq; cbv zeta; rewrite !start_configured;
  controller_cbv;
  destruct (sl_open _ c1) as [code1 cam1];
  destruct (sl_open _ c2) as [code2 cam2];
  destruct mode, code1, code2; controller_cbv.

(** X11. [start_viewing] configures both sessions before it starts
    any: whatever the mode, and whether it returns or raises, both
    sessions end with the resolution and frame rate of their combo boxes
    and with the clip range of the spin boxes (the session that is not
    selected and a session that was already open included); the
    colormaps and the widgets are left as they were. *)
Theorem start_viewing_applies_configuration (w : DualZEDViewer Camera) :
  let w' := snd (start_viewing w) in
  init_params (viewer1 w') = params1 w /\
  init_params (viewer2 w') = params2 w /\
  clip_range (viewer1 w') = (clip_min_box w, clip_max_box w) /\
  clip_range (viewer2 w') = (clip_min_box w, clip_max_box w) /\
  colormap (viewer1 w') = colormap (viewer1 w) /\
  colormap (viewer2 w') = colormap (viewer2 w) /\
  edit_widgets (res_combo1 w) (res_combo2 w) (fps_combo1 w) (fps_combo2 w)
    (clip_min_box w) (clip_max_box w) w' = w'.
Proof.
  start_viewing_cases w; repeat split; reflexivity.
Qed.

(** X12. [start_viewing] returns normally exactly when every device the
    mode selects opens, and then the timer runs with period 30; otherwise
    it raises the [RuntimeError] of [start] (never the [ValueError] of
    [set_fps]: the combo boxes hold integer literals only) and the timer
    is left as it was. *)
Theorem start_viewing_outcome (w : DualZEDViewer Camera) :
  let '(r, w') := start_viewing w in
  r = (if selected_open w then Ok tt else Raise (RuntimeError "카메라 열기 실패")) /\
  timer w' = (if selected_open w then Some 30 else timer w).
Proof.
  start_viewing_cases w; split; reflexivity.
Qed.

(** X13. [start_viewing] does not look at the running flags and closes
    nothing.  The device of session 1, when selected, receives [open]
    even if the session is already open; that of session 2, when
    selected, receives it unless the start of session 1 has raised; the
    device of a session that is not selected is not touched; and a
    session that was running is still running afterwards. *)
Theorem start_viewing_reopens_never_closes (w : DualZEDViewer Camera) :
  let w' := snd (start_viewing w) in
  (selects1 (camera_selector w) = true ->
   camera (viewer1 w') = snd (sl_open (params1 w) (camera (viewer1 w)))) /\
  (selects2 (camera_selector w) = true ->
   camera (viewer2 w')
   = if negb (selects1 (camera_selector w)) || opens (params1 w) (camera (viewer1 w))
     then snd (sl_open (params2 w) (camera (viewer2 w)))
     else camera (viewer2 w)) /\
  (selects1 (camera_selector w) = false -> camera (viewer1 w') = camera (viewer1 w)) /\
  (selects2 (camera_selector w) = false -> camera (viewer2 w') = camera (viewer2 w)) /\
  (running (viewer1 w) = true -> running (viewer1 w') = true) /\
  (running (viewer2 w) = true -> running (viewer2 w') = true).
Proof.
  start_viewing_cases w; repeat split; try reflexivity; try discriminate; auto.
Qed.

Lemma widget_eta (w : DualZEDViewer Camera) :
  with_image_label1 (image_label1 w) (with_viewer1 (viewer1 w) w) = w /\
  with_image_label2 (image_label2 w) (with_viewer2 (viewer2 w) w) = w.
Proof. destruct w. split; reflexivity. Qed.

(** X14. A tick with no selected session open does nothing at all: both
    sessions, their devices, both panes and the timer are as before.
    This is the state after construction, and the state after the
    operator switches to a camera that was never started. *)
Theorem update_images_idle (w : DualZEDViewer Camera) :
  (selects1 (camera_selector w) = true -> running (viewer1 w) = false) ->
  (selects2 (camera_selector w) = true -> running (viewer2 w) = false) ->
  update_images palette w = (Ok tt, w) /\ on_timeout palette w = (Ok tt, w).
Proof.
  intros H1 H2.
  assert (E : update_images palette w = (Ok tt, w)).
  { rewrite update_images_eq. cbv zeta.
    destruct (widget_eta w) as [E1 E2].
    destruct (selects1 (camera_selector w)).
    - rewrite (get_depth_image_closed palette _ (H1 eq_refl)). cbn [pane_after].
      rewrite E1.
      destruct (selects2 (camera_selector w)); [|reflexivity].
      rewrite (get_depth_image_closed palette _ (H2 eq_refl)). cbn [pane_after].
      rewrite E2. reflexivity.
    - destruct (selects2 (camera_selector w)); [|reflexivity].
      rewrite (get_depth_image_closed palette _ (H2 eq_refl)). cbn [pane_after].
      rewrite E2. reflexivity. }
  split; [exact E|].
  unfold on_timeout, bind, gets. destruct (timer w); [exact E | reflexivity].
Qed.

(** X15. A tick reads none of the configuration widgets: editing the
    combo boxes and the spin boxes changes neither what [update_images]
    does to the sessions and the panes nor what it returns.  New values
    reach the sessions through [start_viewing] only. *)
Theorem update_images_ignores_widgets r1 r2 f1 f2 cmin cmax (w : DualZEDViewer Camera) :
  update_images palette (edit_widgets r1 r2 f1 f2 cmin cmax w)
  = (let '(r, w') := update_images palette w in
     (r, edit_widgets r1 r2 f1 f2 cmin cmax w')).
Proof.
  rewrite !update_images_eq. cbv zeta. unfold edit_widgets. record_simpl.
  destruct (get_depth_image palette (viewer1 w)) as [a1 v1'].
  destruct (selects1 (camera_selector w)), (selects2 (camera_selector w));
    record_simpl;
    try (destruct (get_depth_image palette (viewer2 w)) as [a2 v2']; record_simpl);
    reflexivity.
Qed.

(** X16. A tick changes no running flag and no configuration of
    either session (initialisation parameters, clip range), and it never
    blanks a pane: a pane that shows an image shows one afterwards. *)
Theorem update_images_invariants (w : DualZEDViewer Camera) :
  let w' := snd (update_images palette w) in
  running (viewer1 w') = running (viewer1 w) /\
  running (viewer2 w') = running (viewer2 w) /\
  init_params (viewer1 w') = init_params (viewer1 w) /\
  init_params (viewer2 w') = init_params (viewer2 w) /\
  clip_range (viewer1 w') = clip_range (viewer1 w) /\
  clip_range (viewer2 w') = clip_range (viewer2 w) /\
  (image_label1 w <> None -> image_label1 w' <> None) /\
  (image_label2 w <> None -> image_label2 w' <> None).
Proof.
  rewrite update_images_eq. cbv zeta.
  destruct (get_depth_image_keeps palette (viewer1 w))
    as (a1 & v1' & E1 & R1 & P1 & C1 & _).
  destruct (get_depth_image_keeps palette (viewer2 w))
    as (a2 & v2' & E2 & R2 & P2 & C2 & _).
  destruct (selects1 (camera_selector w)), (selects2 (camera_selector w));
    rewrite ?E1; record_simpl; rewrite ?E2; record_simpl;
    cbn [snd]; record_simpl; repeat split; try assumption; try reflexivity;
    try (destruct a1; cbn [pane_after]; congruence);
    try (destruct a2; cbn [pane_after]; congruence).
Qed.

(** X17. In mode "Both Cameras" with two devices that open and deliver a
    non-degenerate depth measure each, [start_viewing] followed by the
    first timeout returns normally and leaves on each pane the measure of
    its own camera, colorized with the clip range of the spin boxes and
    converted to RGB; both sessions are running and the timer is on. *)
Theorem both_cameras_first_tick (w : DualZEDViewer Camera)
    (cam1 cam1' cam2 cam2' : Camera) (mat1 mat2 : DepthFrame) :
  camera_selector w = Item_Both ->
  opens (params1 w) (camera (viewer1 w)) = true ->
  opens (params2 w) (camera (viewer2 w)) = true ->
  sl_grab (snd (sl_open (params1 w) (camera (viewer1 w)))) = (SUCCESS, cam1) ->
  sl_retrieve_measure cam1 = (mat1, cam1') ->
  sl_grab (snd (sl_open (params2 w) (camera (viewer2 w)))) = (SUCCESS, cam2) ->
  sl_retrieve_measure cam2 = (mat2, cam2') ->
  nd_h mat1 <> 0%nat -> nd_w mat1 <> 0%nat ->
  nd_h mat2 <> 0%nat -> nd_w mat2 <> 0%nat ->
  exists w',
    (start_viewing ;;; on_timeout palette) w = (Ok tt, w') /\
    image_label1 w'
    = Some (cv_to_pixmap
              (process_depth_image palette mat1
                 (clip_min_box w, clip_max_box w) (colormap (viewer1 w)))) /\
    image_label2 w'
    = Some (cv_to_pixmap
              (process_depth_image palette mat2
                 (clip_min_box w, clip_max_box w) (colormap (viewer2 w)))) /\
    camera (viewer1 w') = cam1' /\ camera (viewer2 w') = cam2' /\
    running (viewer1 w') = true /\ running (viewer2 w') = true /\
    timer w' = Some 30.
Proof.
  destruct w as [v1 v2 r1 r2 f1 f2 cmin cmax mode l1 l2 t].
  destruct v1 as [c1 p1 d1 run1 clip1 cm1], v2 as [c2 p2 d2 run2 clip2 cm2].
  controller_cbv. intros -> Ho1 Ho2 Hg1 Hr1 Hg2 Hr2 Hh1 Hw1 Hh2 Hw2.
  unfold bind at 1. rewrite start_viewing_eq. cbv zeta. rewrite !start_configured.
  controller_cbv.
  destruct (sl_open _ c1) as [code1 o1]. destruct (sl_open _ c2) as [code2 o2].
  destruct code1; [|discriminate]. destruct code2; [|discriminate].
  controller_cbv. unfold on_timeout, bind, gets. controller_cbv.
  rewrite update_images_eq. controller_cbv.
  match goal with
  | |- context [get_depth_image palette ?v] =>
    rewrite (get_depth_image_good palette v cam1 mat1 cam1' eq_refl Hg1 Hr1 Hh1 Hw1)
  end.
  controller_cbv.
  match goal with
  | |- context [get_depth_image palette ?v] =>
    rewrite (get_depth_image_good palette v cam2 mat2 cam2' eq_refl Hg2 Hr2 Hh2 Hw2)
  end.
  controller_cbv. cbn [pane_after].
  eexists. split; [reflexivity|]. repeat split; reflexivity.
Qed.

End ControllerInvariants.

(** ** The window as constructed *)

Section Construction.
Context {Camera : Type} `{SDK : CameraSDK Camera}.
Variable palette : Z -> Z -> pixel.

(** X18. The window as constructed: both sessions are closed and hold
    the class default clip range (0, 5000), and a tick does nothing.  The
    first [start_viewing] replaces that range by the (0, 1000) of the
    spin boxes and sets HD1080 at 15 fps, the first items of the combo
    boxes, on both sessions; camera 1 is opened with these parameters,
    camera 2 only when camera 1 has opened. *)
Theorem constructed_window_defaults (cam1 cam2 : Camera) (params : InitParameters)
    (mat : DepthFrame) :
  let w := DualZEDViewer_init cam1 cam2 params mat in
  let w' := snd (start_viewing w) in
  let shown := {| camera_resolution := HD1080; camera_fps := 15 |} in
  on_timeout palette w = (Ok tt, w) /\
  update_images palette w = (Ok tt, w) /\
  clip_range (viewer1 w) = (0, 5000) /\ clip_range (viewer2 w) = (0, 5000) /\
  clip_range (viewer1 w') = (0, 1000) /\ clip_range (viewer2 w') = (0, 1000) /\
  init_params (viewer1 w') = shown /\ init_params (viewer2 w') = shown /\
  colormap (viewer1 w') = COLORMAP_JET /\ colormap (viewer2 w') = COLORMAP_JET /\
  camera (viewer1 w') = snd (sl_open shown cam1) /\
  camera (viewer2 w')
  = (if is_success (fst (sl_open shown cam1)) then snd (sl_open shown cam2) else cam2).
Proof.
  cbv zeta. split; [reflexivity|]. split.
  - rewrite update_images_eq. cbv zeta.
    unfold DualZEDViewer_init, ZEDCameraViewer_init.
    cbn [camera_selector selects1 selects2 viewer1 viewer2].
    rewrite !get_depth_image_closed by reflexivity. reflexivity.
  - do 2 (split; [reflexivity|]).
    rewrite start_viewing_eq. cbv zeta. rewrite !start_configured.
    unfold DualZEDViewer_init, ZEDCameraViewer_init, params1, params2.
    cbn [camera_selector selects1 selects2 viewer1 viewer2 camera
         res_combo1 res_combo2 fps_combo1 fps_combo2 res_value fps_value].
    destruct (sl_open _ cam1) as [code1 o1]. destruct (sl_open _ cam2) as [code2 o2].
    destruct code1, code2; cbn [is_success fst snd]; repeat split; reflexivity.
Qed.

End Construction.

(** ** The further statements on concrete inputs *)

Lemma preprocessing_is_idempotent_witness :
  spin_value 0 /\ spin_value 1000 /\
  process_depth_image Scripted.grey
    (np_clip (np_nan_to_num scenario_frame) 0 1000) (0, 1000) COLORMAP_JET
  = process_depth_image Scripted.grey scenario_frame (0, 1000) COLORMAP_JET.
Proof.
  assert (H0 : spin_value 0) by (unfold spin_value; lia).
  assert (H1 : spin_value 1000) by (unfold spin_value; lia).
  split; [exact H0|]. split; [exact H1|].
  exact (proj2 (preprocessing_is_idempotent Scripted.grey scenario_frame 0 1000
                  COLORMAP_JET H0 H1)).
Defined.

Lemma clipped_within_bounds_witness :
  In (F32.of_Z 500) (clipped scenario_frame (0, 1000)) /\
  SFltb (F32.of_Z 500) (F32.of_Z 0) = false /\
  SFltb (F32.of_Z 1000) (F32.of_Z 500) = false.
Proof.
  assert (H0 : spin_value 0) by (unfold spin_value; lia).
  assert (H1 : spin_value 1000) by (unfold spin_value; lia).
  assert (Hle : 0 <= 1000) by lia.
  assert (Hin : In (F32.of_Z 500) (clipped scenario_frame (0, 1000)))
    by (right; left; reflexivity).
  split; [exact Hin|].
  exact (proj2 (clipped_within_bounds scenario_frame 0 1000 (F32.of_Z 500)
                  H0 H1 Hle Hin)).
Defined.

Lemma inverted_clip_range_is_blank_witness :
  spin_value 5000 /\ spin_value 1000 /\
  process_depth_image Scripted.grey scenario_frame (5000, 1000) COLORMAP_JET
  = NDArray 2 3 [(0, 0, 0); (0, 0, 0); (0, 0, 0); (0, 0, 0); (0, 0, 0); (0, 0, 0)].
Proof.
  assert (H0 : spin_value 5000) by (unfold spin_value; lia).
  assert (H1 : spin_value 1000) by (unfold spin_value; lia).
  assert (Hle : 1000 <= 5000) by lia.
  split; [exact H0|]. split; [exact H1|].
  exact (inverted_clip_range_is_blank Scripted.grey scenario_frame 5000 1000
           COLORMAP_JET H0 H1 Hle).
Defined.

Lemma clip_range_irrelevant_inside_witness :
  strictly_inside 0 1000 frame_mid = true /\
  strictly_inside 100 5000 frame_mid = true /\
  process_depth_image Scripted.grey frame_mid (0, 1000) COLORMAP_JET
  = process_depth_image Scripted.grey frame_mid (100, 5000) COLORMAP_JET.
Proof.
  assert (H : strictly_inside 0 1000 frame_mid = true) by reflexivity.
  assert (H' : strictly_inside 100 5000 frame_mid = true) by reflexivity.
  split; [exact H|]. split; [exact H'|].
  exact (clip_range_irrelevant_inside Scripted.grey frame_mid 0 1000 100 5000
           COLORMAP_JET H H').
Defined.

Lemma get_depth_image_image_shape_witness :
  get_depth_image Scripted.grey open_session
  = (Ok (Some (process_depth_image Scripted.grey scenario_frame (0, 5000) COLORMAP_JET)),
     snd (get_depth_image Scripted.grey open_session)) /\
  nd_h (process_depth_image Scripted.grey scenario_frame (0, 5000) COLORMAP_JET) = 2%nat /\
  nd_w (process_depth_image Scripted.grey scenario_frame (0, 5000) COLORMAP_JET) = 3%nat.
Proof.
  assert (H : get_depth_image Scripted.grey open_session
              = (Ok (Some (process_depth_image Scripted.grey scenario_frame (0, 5000)
                             COLORMAP_JET)),
                 snd (get_depth_image Scripted.grey open_session)))
    by (vm_compute; reflexivity).
  split; [exact H|].
  destruct (get_depth_image_image_shape Scripted.grey open_session _ _ H)
    as (_ & _ & _ & Hh & Hw & _).
  split; [exact Hh | exact Hw].
Defined.

Lemma set_clip_range_takes_effect_witness :
  running open_session = true /\
  fst ((set_clip_range 0 2000 ;;; get_depth_image Scripted.grey) open_session)
  = Ok (Some (process_depth_image Scripted.grey scenario_frame (0, 2000) COLORMAP_JET)).
Proof.
  split; [reflexivity|].
  apply (set_clip_range_takes_effect Scripted.grey 0 2000 open_session
           (snd (Scripted.grab (camera open_session))) scenario_frame
           (snd (Scripted.retrieve_measure (snd (Scripted.grab (camera open_session))))));
    [reflexivity | reflexivity | reflexivity | discriminate | discriminate].
Defined.

Lemma update_images_idle_witness :
  running (viewer1 both_healthy) = false /\
  running (viewer2 both_healthy) = false /\
  update_images Scripted.grey both_healthy = (Ok tt, both_healthy) /\
  on_timeout Scripted.grey both_healthy = (Ok tt, both_healthy).
Proof.
  split; [reflexivity|]. split; [reflexivity|].
  apply (update_images_idle Scripted.grey both_healthy); intros _; reflexivity.
Defined.

Lemma both_cameras_first_tick_witness :
  camera_selector both_healthy = Item_Both /\
  opens (params1 both_healthy) (camera (viewer1 both_healthy)) = true /\
  opens (params2 both_healthy) (camera (viewer2 both_healthy)) = true /\
  exists w',
    (start_viewing ;;; on_timeout Scripted.grey) both_healthy = (Ok tt, w') /\
    image_label1 w'
    = Some (cv_to_pixmap
              (process_depth_image Scripted.grey scenario_frame (0, 1000) COLORMAP_JET)) /\
    image_label2 w'
    = Some (cv_to_pixmap
              (process_depth_image Scripted.grey scenario_frame (0, 1000) COLORMAP_JET)).
Proof.
  assert (Hm : camera_selector both_healthy = Item_Both) by reflexivity.
  assert (Ho1 : opens (params1 both_healthy) (camera (viewer1 both_healthy)) = true)
    by reflexivity.
  assert (Ho2 : opens (params2 both_healthy) (camera (viewer2 both_healthy)) = true)
    by reflexivity.
  assert (Hh : nd_h scenario_frame <> 0%nat) by discriminate.
  assert (Hw : nd_w scenario_frame <> 0%nat) by discriminate.
  split; [exact Hm|]. split; [exact Ho1|]. split; [exact Ho2|].
  destruct (both_cameras_first_tick Scripted.grey both_healthy
              (snd (Scripted.grab (snd (Scripted.open (params1 both_healthy)
                                          (camera (viewer1 both_healthy))))))
              (snd (Scripted.retrieve_measure
                 (snd (Scripted.grab (snd (Scripted.open (params1 both_healthy)
                                             (camera (viewer1 both_healthy))))))))
              (snd (Scripted.grab (snd (Scripted.open (params2 both_healthy)
                                          (camera (viewer2 both_healthy))))))
              (snd (Scripted.retrieve_measure
                 (snd (Scripted.grab (snd (Scripted.open (params2 both_healthy)
                                             (camera (viewer2 both_healthy))))))))
              scenario_frame scenario_frame Hm Ho1 Ho2 eq_refl eq_refl eq_refl eq_refl
              Hh Hw Hh Hw)
    as (w' & E & L1 & L2 & _).
  exists w'. split; [exact E|]. split; [exact L1 | exact L2].
Defined.
